(** * POM introspection of the Oracle Tools GUI

    A shallow embedding of [process_POM] and of its nested helper
    [determine_POM_settings], as found in [src/utils/pom.py], together with
    the second copy of the line scanner in [src/oracle-tools-gui.py].

    Python strings are [string]; the [dict] of Maven properties is a
    [gmap string string]; the [set] of profile ids is a [gset string].
    Exceptions are values of the sum type [result].  The two regular
    expressions of the scanner are kept as the pattern texts of the source
    and compiled by a small model of Python's [re] module. *)

From Stdlib Require Import ZArith Ascii.
From stdpp Require Import gmap strings list.
From stdpp Require Import sorting.

Local Open Scope Z_scope.
Set Warnings "-clear-no-such-hyp".

(** ** Python [str] primitives *)

Module Str.

Definition LF : ascii := "010"%char.

(** [c in s] for a one-character [c]. *)
Fixpoint mem (c : ascii) (s : string) : bool :=
  match s with
  | EmptyString => false
  | String d s' => if decide (c = d) then true else mem c s'
  end.

(** [s[:n]] *)
Fixpoint take (n : nat) (s : string) : string :=
  match n, s with
  | S k, String c s' => String c (take k s')
  | _, _ => EmptyString
  end.

(** [s.startswith(p)] *)
Fixpoint startswith (p s : string) : bool :=
  match p, s with
  | EmptyString, _ => true
  | String a p', String b s' => if decide (a = b) then startswith p' s' else false
  | String _ _, EmptyString => false
  end.

(** The scan of [s.replace(old, new)]: occurrences of [old] are found from
    left to right and do not overlap; [skip] counts the characters of the
    occurrence just replaced that are still to be passed over. *)
Fixpoint replace_from (old new : string) (skip : nat) (s : string) : string :=
  match s with
  | EmptyString => match old with EmptyString => new | _ => EmptyString end
  | String c s' =>
      match skip with
      | S k => replace_from old new k s'
      | O =>
          if startswith old s then
            new +:+ match String.length old with
                    | O => String c (replace_from old new O s')
                    | S k => replace_from old new k s'
                    end
          else String c (replace_from old new O s')
      end
  end.

(** [s.replace(old, new)] *)
Definition replace (old new s : string) : string := replace_from old new O s.

End Str.

(** ** Python string literals

    [src/utils/pom.py] writes its patterns as raw literals ([r"..."]),
    [src/oracle-tools-gui.py] as ordinary ones, where a backslash starts an
    escape sequence.  [literal raw body] is the value of the literal whose
    text between the quotes is [body]; octal, hexadecimal and Unicode escapes
    are outside the model and give [None]. *)

Module PyLiteral.

Definition simple_escape (c : ascii) : option ascii :=
  match c with
  | "\"%char => Some "\"%char
  | "'"%char => Some "'"%char
  | "034"%char => Some "034"%char
  | "a"%char => Some "007"%char
  | "b"%char => Some "008"%char
  | "f"%char => Some "012"%char
  | "n"%char => Some "010"%char
  | "r"%char => Some "013"%char
  | "t"%char => Some "009"%char
  | "v"%char => Some "011"%char
  | _ => None
  end.

Definition unsupported_escape (c : ascii) : bool :=
  match c with
  | "0"%char | "1"%char | "2"%char | "3"%char | "4"%char | "5"%char
  | "6"%char | "7"%char | "x"%char | "N"%char | "u"%char | "U"%char
  | "010"%char => true
  | _ => false
  end.

(** [esc] tells that the previous character was an unconsumed backslash. *)
Fixpoint cooked (esc : bool) (body : string) : option string :=
  match body with
  | EmptyString => if esc then None else Some EmptyString
  | String c rest =>
      if esc then
        match simple_escape c with
        | Some d => String d <$> cooked false rest
        | None =>
            if unsupported_escape c then None
            else
              (* an unrecognised escape sequence is left in the string
                 unchanged, backslash included *)
              (fun r => String "\"%char (String c r)) <$> cooked false rest
        end
      else if decide (c = "\"%char) then cooked true rest
      else String c <$> cooked false rest
  end.

Definition literal (raw : bool) (body : string) : option string :=
  if raw then Some body else cooked false body.

End PyLiteral.

(** ** A model of Python's [re] module

    The fragment covers what the two patterns of the scanner use: literal
    characters, backslash-escaped punctuation, [.], bracketed character sets
    with ranges, the greedy quantifiers [*] and [+] on a single character,
    capturing groups that are not nested, and [$].  Anything else is refused
    by [compile].  Matching is by backtracking: every function returns the
    alternatives in the order in which Python tries them, and a match is the
    first alternative. *)

Module Re.

Inductive atom :=
| AChar (c : ascii)                      (* a literal character *)
| AAny                                   (* [.]: anything but a newline *)
| ASet (ranges : list (ascii * ascii)).  (* [[...]] *)

Inductive node :=
| NAtom (a : atom)
| NStar (a : atom)   (* [a*], greedy *)
| NPlus (a : atom)   (* [a+], greedy *)
| NOpen              (* [(] *)
| NClose             (* [)] *)
| NEol.              (* [$] *)

Global Instance atom_eq_dec : EqDecision atom.
Proof. solve_decision. Defined.
Global Instance node_eq_dec : EqDecision node.
Proof. solve_decision. Defined.

(** *** Compilation of a pattern text *)

Inductive mode :=
| MNormal
| MEscape
| MSet (ranges : list (ascii * ascii)) (pending : option ascii) (dash : bool).

Record cstate := CState {
  c_mode : mode;
  c_rev : list node;      (* the nodes read so far, last one first *)
  c_in_group : bool
}.

Definition is_alnum (c : ascii) : bool :=
  let n := N_of_ascii c in
  ((48 <=? n) && (n <=? 57) || (65 <=? n) && (n <=? 90)
   || (97 <=? n) && (n <=? 122))%N.

Definition flush (ranges : list (ascii * ascii)) (pending : option ascii)
    : list (ascii * ascii) :=
  match pending with
  | Some a => ranges ++ [(a, a)]
  | None => ranges
  end.

Definition quantify (q : atom -> node) (st : cstate) : option cstate :=
  match c_rev st with
  | NAtom a :: rest => Some (CState MNormal (q a :: rest) (c_in_group st))
  | _ => None
  end.

Definition emit (n : node) (st : cstate) : cstate :=
  CState MNormal (n :: c_rev st) (c_in_group st).

Definition feed (st : cstate) (c : ascii) : option cstate :=
  match c_mode st with
  | MEscape =>
      if is_alnum c then None else Some (emit (NAtom (AChar c)) st)
  | MSet ranges pending dash =>
      match c with
      | "]"%char =>
          match ranges, pending with
          | [], None => None
          | _, _ =>
              let ranges := flush ranges pending in
              let ranges := if dash then ranges ++ [("-"%char, "-"%char)] else ranges in
              Some (emit (NAtom (ASet ranges)) st)
          end
      | "\"%char => None
      | _ =>
          match ranges, pending, c with
          | [], None, "^"%char => None
          | _, _, _ =>
              if dash then
                match pending with
                | Some a =>
                    if (N_of_ascii a <=? N_of_ascii c)%N
                    then Some (CState (MSet (ranges ++ [(a, c)]) None false)
                                      (c_rev st) (c_in_group st))
                    else None
                | None => None
                end
              else
                match pending, c with
                | Some a, "-"%char =>
                    Some (CState (MSet ranges pending true) (c_rev st) (c_in_group st))
                | _, _ =>
                    Some (CState (MSet (flush ranges pending) (Some c) false)
                                 (c_rev st) (c_in_group st))
                end
          end
      end
  | MNormal =>
      match c with
      | "\"%char => Some (CState MEscape (c_rev st) (c_in_group st))
      | "["%char => Some (CState (MSet [] None false) (c_rev st) (c_in_group st))
      | "("%char =>
          if c_in_group st then None
          else Some (CState MNormal (NOpen :: c_rev st) true)
      | ")"%char =>
          if c_in_group st then Some (CState MNormal (NClose :: c_rev st) false)
          else None
      | "."%char => Some (emit (NAtom AAny) st)
      | "*"%char => quantify NStar st
      | "+"%char => quantify NPlus st
      | "$"%char => Some (emit NEol st)
      | "?"%char | "^"%char | "|"%char | "{"%char => None
      | _ => Some (emit (NAtom (AChar c)) st)
      end
  end.

Fixpoint feed_all (st : cstate) (pattern : string) : option cstate :=
  match pattern with
  | EmptyString => Some st
  | String c rest =>
      match feed st c with
      | Some st' => feed_all st' rest
      | None => None
      end
  end.

(** [re.compile(pattern)], [None] where the pattern is outside the
    fragment or malformed. *)
Definition compile (pattern : string) : option (list node) :=
  match feed_all (CState MNormal [] false) pattern with
  | Some (CState MNormal nodes false) => Some (rev nodes)
  | _ => None
  end.

(** *** Matching *)

Definition in_range (c : ascii) (r : ascii * ascii) : bool :=
  ((N_of_ascii r.1 <=? N_of_ascii c) && (N_of_ascii c <=? N_of_ascii r.2))%N.

Definition accepts (a : atom) (c : ascii) : bool :=
  match a with
  | AChar d => bool_decide (c = d)
  | AAny => negb (bool_decide (c = Str.LF))
  | ASet ranges => existsb (in_range c) ranges
  end.

(** The inputs left after [a*], the longest repetition first. *)
Fixpoint star_rests (a : atom) (s : string) : list string :=
  match s with
  | EmptyString => [EmptyString]
  | String c s' => if accepts a c then star_rests a s' ++ [s] else [s]
  end.

Record mstate := MState {
  m_open : option string;   (* the input that was left at the open [(] *)
  m_groups : list string    (* the groups closed so far, in order *)
}.

Definition step (n : node) (s : string) (st : mstate) : list (string * mstate) :=
  match n with
  | NAtom a =>
      match s with
      | String c s' => if accepts a c then [(s', st)] else []
      | EmptyString => []
      end
  | NStar a => (fun r => (r, st)) <$> star_rests a s
  | NPlus a =>
      match s with
      | String c s' =>
          if accepts a c then (fun r => (r, st)) <$> star_rests a s' else []
      | EmptyString => []
      end
  | NOpen => [(s, MState (Some s) (m_groups st))]
  | NClose =>
      match m_open st with
      | Some s0 =>
          let text := Str.take (String.length s0 - String.length s) s0 in
          [(s, MState None (m_groups st ++ [text]))]
      | None => []
      end
  | NEol =>
      (* the end of the string, or just before a newline that ends it *)
      if bool_decide (s = EmptyString) || bool_decide (s = String Str.LF EmptyString)
      then [(s, st)] else []
  end.

Fixpoint run (prog : list node) (s : string) (st : mstate)
    : list (string * mstate) :=
  match prog with
  | [] => [(s, st)]
  | n :: prog' => x ← step n s st; run prog' x.1 x.2
  end.

(** A match object, reduced to its groups: [m.group(i)] is [group m i],
    for [i] from 1. *)
Definition match_object := list string.

Definition group (m : match_object) (i : nat) : string :=
  default EmptyString (m !! pred i).

(** The match of [prog] that starts at the head of [s], if any. *)
Definition match_here (prog : list node) (s : string) : option match_object :=
  (fun x => m_groups x.2) <$> head (run prog s (MState None [])).

(** The leftmost start from which [prog] matches. *)
Fixpoint search_from (prog : list node) (s : string) : option match_object :=
  match match_here prog s with
  | Some m => Some m
  | None =>
      match s with
      | String _ s' => search_from prog s'
      | EmptyString => None
      end
  end.

(** [re.match(pattern, s)] and [re.search(pattern, s)].  The patterns of
    the scanner compile ([profile_pattern_compiles] and
    [property_pattern_compiles] below), so the [None] of a pattern
    that does not compile never shows. *)
Definition match_ (pattern s : string) : option match_object :=
  prog ← compile pattern; match_here prog s.

Definition search (pattern s : string) : option match_object :=
  prog ← compile pattern; search_from prog s.

End Re.

(** ** Exceptions and results *)

(** The texts of the exceptions, with the values that the source formats
    into them kept apart (the text of a formatted [set] has no fixed order). *)
Inductive message :=
| CommandFailed (cmd : string) (returncode : Z) (error : string)
    (* 'The command "{cmd}" failed with return code {returncode} and error:\n{error}' *)
| ProfilesNotSuperset (profiles apex db : gset string)
    (* 'Profiles (%s) must be a super set of either the Apex (%s) or database (%s) profiles' *)
| ConfigDirNotSet
    (* 'The property db.config.dir must have been set in order to choose a database (on of its subdirectories)' *)
| NoSubdirectories (dir : string)
    (* 'The directory %s must have subdirectories, where each one contains information for one database (and Apex) instance' *)
| AccountNotSet (db_proxy_username db_username : string).
    (* 'The database acount (Maven property db.proxy.username {db_proxy_username} or db.username {db_username}) must be set' *)

Inductive exception :=
| Exception (msg : message)
| AssertionError (msg : message)
| KeyError (key : string).

Inductive result (A : Type) :=
| Return (a : A)
| Raise (e : exception).
Arguments Return {A} a.
Arguments Raise {A} e.

Definition bind {A B} (r : result A) (k : A -> result B) : result B :=
  match r with
  | Return a => k a
  | Raise e => Raise e
  end.

Notation "x <- r ;; k" := (bind r (fun x => k))
  (at level 100, r at next level, right associativity, only parsing).
Notation "r ;;; k" := (bind r (fun _ => k))
  (at level 100, right associativity, only parsing).

(** [assert cond, msg]: the message is evaluated only when [cond] is false,
    and its evaluation may raise on its own. *)
Definition assert (cond : bool) (msg : result message) : result unit :=
  if cond then Return tt else (m <- msg;; Raise (AssertionError m)).

(** [d[key]] on a [dict] *)
Definition subscript (d : gmap string string) (key : string) : result string :=
  match d !! key with
  | Some v => Return v
  | None => Raise (KeyError key)
  end.

(** [d.get(key, dflt)] *)
Definition get (d : gmap string string) (key dflt : string) : string :=
  default dflt (d !! key).

(** Truth value of a [str] and of an optional [str] ([None] is false). *)
Definition truthy (s : string) : bool := negb (bool_decide (s = EmptyString)).
Definition truthy_opt (o : option string) : bool :=
  match o with
  | Some s => truthy s
  | None => false
  end.

(** ** The environment of a run *)

(** What [subprocess.Popen(cmd, ..., shell=True, text=True)] followed by
    [communicate()] gives back. *)
Record completed := Completed {
  returncode : Z;
  stdout : string;
  stderr : string
}.

(** An entry of [Path.iterdir()]: its [name] and the answer of
    [Path.is_dir]. *)
Record dir_entry := DirEntry {
  name : string;
  is_dir : bool
}.

Record world := World {
  (** the outcome of the shell command [cmd] *)
  popen : string -> completed;
  (** the entries of [Path(dir).iterdir()], [None] when the iteration raises *)
  iterdir : string -> option (list dir_entry)
}.

Abbreviation settings := (gmap string string * gset string)%type.

(** [for ch in stderr: error += ch] *)
Fixpoint accumulate (error : string) (stderr : string) : string :=
  match stderr with
  | EmptyString => error
  | String ch rest => accumulate (error +:+ String ch EmptyString) rest
  end.

(** ** [src/utils/pom.py] *)

Module pom.

(** [r"Profile Id: ([a-zA-Z0-9_.-]+) \(Active: .*, Source: pom\)"] *)
Definition profile_literal : option string :=
  PyLiteral.literal true "Profile Id: ([a-zA-Z0-9_.-]+) \(Active: .*, Source: pom\)".

(** [r'\[echoproperties\] ([a-zA-Z0-9_.-]+)=(.+)$'] *)
Definition property_literal : option string :=
  PyLiteral.literal true "\[echoproperties\] ([a-zA-Z0-9_.-]+)=(.+)$".

Definition profile_pattern : string := default EmptyString profile_literal.
Definition property_pattern : string := default EmptyString property_literal.

(** The [else] branch of the loop body: what is done with [line] once its
    newline is read. *)
Definition process_line (line : string) (st : settings) : settings :=
  let '(properties, profiles) := st in
  match Re.search profile_pattern line with
  | Some m => (properties, {[ Re.group m 1 ]} ∪ profiles)
  | None =>
      match Re.match_ property_pattern line with
      | Some m => (<[ Re.group m 1 := Re.group m 2 ]> properties, profiles)
      | None => (properties, profiles)
      end
  end.

(** [for ch in stdout: ...] over the loop variables [line], [properties]
    and [profiles]. *)
Fixpoint scan (stdout : string) (line : string) (st : settings) : settings :=
  match stdout with
  | EmptyString => st
  | String ch rest =>
      if bool_decide (ch ≠ Str.LF)
      then scan rest (line +:+ String ch EmptyString) st
      else scan rest EmptyString (process_line line st)
  end.

(** The loop, entered with [line = ''], [properties = {}] and
    [profiles = set()]. *)
Definition parse (stdout : string) : settings := scan stdout EmptyString (∅, ∅).

Section run.

Variable w : world.

Definition command (pom_file : string) (db_config_dir : option string) : string :=
  let cmd := "mvn --file " +:+ pom_file +:+ " -N help:all-profiles -Pconf-inquiry compile" in
  match db_config_dir with
  | Some dir => if truthy dir then cmd +:+ " -Ddb.config.dir=" +:+ dir else cmd
  | None => cmd
  end.

Definition determine_POM_settings (pom_file : string)
    (db_config_dir : option string) : result settings :=
  let cmd := command pom_file db_config_dir in
  let mvn := popen w cmd in
  if bool_decide (returncode mvn = 0) then Return (parse (stdout mvn))
  else
    let error := accumulate EmptyString (stderr mvn) in
    Raise (Exception (CommandFailed cmd (returncode mvn) error)).

Definition apex_profiles : list string := ["apex-export"; "apex-import"].
Definition db_profiles : list string :=
  ["db-info"; "db-install"; "db-code-check"; "db-test";
   "db-generate-ddl-full"; "db-generate-ddl-incr"].

(** [profiles.issuperset(set(l))] *)
Definition issuperset (profiles : gset string) (l : list string) : bool :=
  bool_decide (list_to_set l ⊆ profiles).

Definition process_POM (pom_file : string) (db_config_dir : option string)
    : result (string * list string * list string * string * string) :=
  st <- determine_POM_settings pom_file db_config_dir;;
  let '(properties, profiles) := st in
  profiles <-
    (if issuperset profiles apex_profiles then Return apex_profiles
     else if issuperset profiles db_profiles then Return db_profiles
     else Raise (Exception (ProfilesNotSuperset profiles
                              (list_to_set apex_profiles)
                              (list_to_set db_profiles))));;
  let db_config_dir : string :=
    if truthy_opt db_config_dir then default EmptyString db_config_dir
    else Str.replace "\\" "\"
           (Str.replace "\:" ":" (get properties "db.config.dir" EmptyString)) in
  assert (truthy db_config_dir) (Return ConfigDirNotSet);;;
  let dbs : list string :=
    match iterdir w db_config_dir with
    | Some entries => name <$> filter (fun d => is_dir d = true) entries
    | None => []
    end in
  assert (bool_decide (0 < length dbs)%nat)
    (dir <- subscript properties "db.config.dir";; Return (NoSubdirectories dir));;;
  let db_proxy_username := get properties "db.proxy.username" EmptyString in
  let db_username := get properties "db.username" EmptyString in
  assert (truthy db_proxy_username || truthy db_username)
    (Return (AccountNotSet db_proxy_username db_username));;;
  Return (db_config_dir, dbs, profiles, db_proxy_username, db_username).

End run.

End pom.

(** ** [src/oracle-tools-gui.py]: the second copy of the scanner *)

Module oracle_tools_gui.

(** ["Profile Id: ([a-zA-Z0-9_.-]+) \(Active: .*, Source: pom\)"], not a
    raw literal *)
Definition profile_literal : option string :=
  PyLiteral.literal false "Profile Id: ([a-zA-Z0-9_.-]+) \(Active: .*, Source: pom\)".

(** ['\[echoproperties\] ([a-zA-Z0-9_.-]+)=(.+)$'], not a raw literal *)
Definition property_literal : option string :=
  PyLiteral.literal false "\[echoproperties\] ([a-zA-Z0-9_.-]+)=(.+)$".

Definition profile_pattern : string := default EmptyString profile_literal.
Definition property_pattern : string := default EmptyString property_literal.

Definition process_line (line : string) (st : settings) : settings :=
  let '(properties, profiles) := st in
  match Re.search profile_pattern line with
  | Some m => (properties, {[ Re.group m 1 ]} ∪ profiles)
  | None =>
      match Re.match_ property_pattern line with
      | Some m => (<[ Re.group m 1 := Re.group m 2 ]> properties, profiles)
      | None => (properties, profiles)
      end
  end.

Fixpoint scan (stdout : string) (line : string) (st : settings) : settings :=
  match stdout with
  | EmptyString => st
  | String ch rest =>
      if bool_decide (ch ≠ Str.LF)
      then scan rest (line +:+ String ch EmptyString) st
      else scan rest EmptyString (process_line line st)
  end.

Definition parse (stdout : string) : settings := scan stdout EmptyString (∅, ∅).

Definition command (pom_file : string) : string :=
  "mvn --file " +:+ pom_file +:+ " -N help:all-profiles -Pconf-inquiry compile".

Definition determine_POM_settings (w : world) (pom_file : string)
    : result settings :=
  let cmd := command pom_file in
  let mvn := popen w cmd in
  if bool_decide (returncode mvn = 0) then Return (parse (stdout mvn))
  else
    let error := accumulate EmptyString (stderr mvn) in
    Raise (Exception (CommandFailed cmd (returncode mvn) error)).

End oracle_tools_gui.

(** * Views used by the statements

    Nothing here is part of the program: these definitions name what the
    properties below talk about. *)

(** ** The compiled patterns *)

Module ReProg.
Import Re.

(** The nodes of a run of literal characters. *)
Fixpoint lit (p : string) : list node :=
  match p with
  | EmptyString => []
  | String c p' => NAtom (AChar c) :: lit p'
  end.

(** Every character of [s] is accepted by [a]. *)
Fixpoint all_accept (a : atom) (s : string) : bool :=
  match s with
  | EmptyString => true
  | String c s' => accepts a c && all_accept a s'
  end.

(** [[a-zA-Z0-9_.-]] *)
Definition ident : atom :=
  ASet [("a", "z"); ("A", "Z"); ("0", "9"); ("_", "_"); (".", "."); ("-", "-")]%char.

Definition is_ident (s : string) : bool := all_accept ident s.
(** No newline in [s]. *)
Definition one_line (s : string) : bool := all_accept AAny s.

Definition profile_prog : list node :=
  lit "Profile Id: " ++ NOpen :: NPlus ident :: NClose ::
  lit " (Active: " ++ NStar AAny :: lit ", Source: pom)" ++ [].

Definition property_prog : list node :=
  lit "[echoproperties] " ++ NOpen :: NPlus ident :: NClose ::
  lit "=" ++ NOpen :: NPlus AAny :: NClose :: [NEol].

End ReProg.

(** ** The standard output as a list of lines *)

Module Lines.
Import pom.

(** The lines of [stdout] that a newline ends, in stream order; [line]
    holds the characters read since the last newline. *)
Fixpoint lines_from (line : string) (stdout : string) : list string :=
  match stdout with
  | EmptyString => []
  | String ch rest =>
      if bool_decide (ch ≠ Str.LF)
      then lines_from (line +:+ String ch EmptyString) rest
      else line :: lines_from EmptyString rest
  end.

Definition lines (stdout : string) : list string := lines_from EmptyString stdout.

(** The value of the loop variable [line] once [stdout] is read. *)
Fixpoint residual (line : string) (stdout : string) : string :=
  match stdout with
  | EmptyString => line
  | String ch rest =>
      if bool_decide (ch ≠ Str.LF)
      then residual (line +:+ String ch EmptyString) rest
      else residual EmptyString rest
  end.

Definition process_lines (st : settings) (ls : list string) : settings :=
  foldl (λ st l, process_line l st) st ls.

(** Each line followed by a newline. *)
Definition unlines (ls : list string) : string :=
  foldr (λ l acc, l +:+ String Str.LF acc) EmptyString ls.

(** The profile id that a line announces, and the property that a line
    echoes, as [process_line] takes them. *)
Definition profile_of (line : string) : option string :=
  (λ m, Re.group m 1) <$> Re.search profile_pattern line.

Definition echo_of (line : string) : option (string * string) :=
  match Re.search profile_pattern line with
  | Some _ => None
  | None => (λ m, (Re.group m 1, Re.group m 2)) <$> Re.match_ property_pattern line
  end.

(** The values echoed for [key], in stream order. *)
Definition echoes (key : string) (ls : list string) : list string :=
  omap (λ l, match echo_of l with
             | Some (k, v) => if decide (k = key) then Some v else None
             | None => None
             end) ls.

End Lines.

(** ** The outcome of [process_POM] after the scan *)

Module Outcome.
Import pom.

(** The tuple that [process_POM] returns and its parts. *)
Abbreviation tuple := (string * list string * list string * string * string)%type.

Definition dir_of (t : tuple) : string := t.1.1.1.1.
Definition targets_of (t : tuple) : list string := t.1.1.1.2.
Definition bundle_of (t : tuple) : list string := t.1.1.2.
Definition credentials_of (t : tuple) : string * string := (t.1.2, t.2).

(** The names of the subdirectories of [dir]; none when the listing
    raises. *)
Definition targets (w : world) (dir : string) : list string :=
  match iterdir w dir with
  | Some entries => name <$> filter (λ d, is_dir d = true) entries
  | None => []
  end.

(** A backslash followed by a colon becomes a colon, then two
    backslashes become one. *)
Definition normalize (v : string) : string :=
  Str.replace "\\" "\" (Str.replace "\:" ":" v).

(** The directory that is listed: the override when it is given and not
    empty, else the normalised property [db.config.dir], empty when the
    property is absent. *)
Definition resolved_dir (override : option string)
    (properties : gmap string string) : string :=
  match override with
  | Some d =>
      if bool_decide (d = EmptyString)
      then normalize (default EmptyString (properties !! "db.config.dir"))
      else d
  | None => normalize (default EmptyString (properties !! "db.config.dir"))
  end.

(** What follows the choice of [bundle]. *)
Definition finish (w : world) (override : option string)
    (properties : gmap string string) (bundle : list string) : result tuple :=
  let dir := resolved_dir override properties in
  let proxy := default EmptyString (properties !! "db.proxy.username") in
  let user := default EmptyString (properties !! "db.username") in
  if bool_decide (dir = EmptyString) then Raise (AssertionError ConfigDirNotSet)
  else
    match targets w dir with
    | [] =>
        match properties !! "db.config.dir" with
        | Some v => Raise (AssertionError (NoSubdirectories v))
        | None => Raise (KeyError "db.config.dir")
        end
    | dbs =>
        if bool_decide (proxy = EmptyString) && bool_decide (user = EmptyString)
        then Raise (AssertionError (AccountNotSet proxy user))
        else Return (dir, dbs, bundle, proxy, user)
    end.

End Outcome.

(** ** Sample runs *)

Module Samples.
Import Lines.

(** A run in which Maven ends with status 0 and prints [out], and in which
    every directory lists [entries]. *)
Definition run_with (out : string) (entries : option (list dir_entry)) : world :=
  World (λ _, Completed 0 out EmptyString) (λ _, entries).

Definition announce (id : string) : string :=
  "Profile Id: " +:+ id +:+ " (Active: false , Source: pom)".

Definition echo (key value : string) : string :=
  "[echoproperties] " +:+ key +:+ "=" +:+ value.

Definition three_dirs : option (list dir_entry) :=
  Some [DirEntry "dev" true; DirEntry "README" false; DirEntry "test" true;
        DirEntry "prod" true].

(** Only one of the database profiles. *)
Definition out_neither : string :=
  unlines [announce "db-install"; announce "apex-export";
           echo "db.config.dir" "/opt/conf"; echo "db.username" "alice"].

(** Both bundles at once. *)
Definition out_both : string :=
  unlines [announce "db-info"; announce "apex-import"; announce "db-install";
           announce "db-code-check"; announce "db-test"; announce "apex-export";
           announce "db-generate-ddl-full"; announce "db-generate-ddl-incr";
           echo "db.config.dir" "/opt/conf"; echo "db.proxy.username" "proxyacct"].

(** The six database profiles, not in the order of the bundle. *)
Definition out_db : string :=
  unlines [announce "db-install"; announce "db-test";
           announce "db-generate-ddl-full"; announce "db-generate-ddl-incr";
           announce "db-info"; announce "db-code-check";
           echo "db.config.dir" "/opt/conf"; echo "db.proxy.username" "proxyacct"].

(** The Apex profiles and an account, but no echo of [db.config.dir]. *)
Definition out_no_dir : string :=
  unlines [announce "apex-export"; announce "apex-import";
           echo "db.proxy.username" "proxyacct"].

(** An escaped Windows path, a user name and an empty proxy user name. *)
Definition out_alice : string :=
  unlines [announce "apex-export"; announce "apex-import";
           echo "db.config.dir" "C\:\\tmp\\conf";
           echo "db.proxy.username" EmptyString; echo "db.username" "alice"].

(** The same key echoed three times, other keys in between. *)
Definition out_repeated : string :=
  unlines [echo "db.username" "alice"; echo "db.config.dir" "/a";
           echo "db.username" "bob"; announce "db-info";
           echo "db.username" "carol"; echo "db.config.dir" "/b"].

End Samples.

(** ** More of Python's [str] *)

Module PyStr.

(** [c.lower()] for one character: the ASCII capital letters; any other
    character is left as it is. *)
Definition lower_char (c : ascii) : ascii :=
  let n := N_of_ascii c in
  if ((65 <=? n) && (n <=? 90))%N then ascii_of_N (n + 32) else c.

(** [s.lower()] *)
Fixpoint lower (s : string) : string :=
  match s with
  | EmptyString => EmptyString
  | String c s' => String (lower_char c) (lower s')
  end.

(** [sub in s] *)
Fixpoint contains (sub s : string) : bool :=
  if Str.startswith sub s then true
  else
    match s with
    | EmptyString => false
    | String _ s' => contains sub s'
    end.

End PyStr.

(** ** [sorted(l, key=key)]

    Python's sort is stable; the list is built by insertion from the right,
    each element going before the first one whose key is not smaller. *)

Module PySorted.

Section sorted.

Context {A : Type} (key : A -> Z).

Fixpoint insert (x : A) (l : list A) : list A :=
  match l with
  | [] => [x]
  | y :: l' => if key x <=? key y then x :: y :: l' else y :: insert x l'
  end.

Definition sorted (l : list A) : list A := foldr insert [] l.

End sorted.

End PySorted.

(** ** [src/utils/pom.py]: [db_order] *)

Module pom_order.

(** The loop [for i, e in enumerate([...])] from index [i] on, and the
    [return db.lower()] after it: the result is an [int] or a [str]. *)
Fixpoint db_order_from (i : Z) (es : list string) (db : string) : Z + string :=
  match es with
  | [] => inr (PyStr.lower db)
  | e :: es' =>
      if PyStr.contains e (PyStr.lower db) then inl i
      else db_order_from (i + 1) es' db
  end.

Definition db_order (db : string) : Z + string :=
  db_order_from 0 ["dev"; "tst"; "test"; "acc"; "prod"; "prd"] db.

End pom_order.

(** ** [src/oracle-tools-gui.py]: the rest of the file *)

Module gui.

(** The exceptions of this file: those whose text [src/utils/pom.py] has
    too, the assertion on the proxy account, and the two that indexing and
    the bare [assert] of the main block raise. *)
Inductive exception' :=
| Shared (e : exception)
| ProxyNotSet
    (* AssertionError('The Maven property db.proxy.username (the database proxy acount) must be set') *)
| IndexError
    (* 'list index out of range' *)
| BareAssertionError.
    (* [assert len(argv) == 4] *)

Inductive result' (A : Type) :=
| Return' (a : A)
| Raise' (e : exception').
Arguments Return' {A} a.
Arguments Raise' {A} e.

Definition bind' {A B} (r : result' A) (k : A -> result' B) : result' B :=
  match r with
  | Return' a => k a
  | Raise' e => Raise' e
  end.

Definition lift {A} (r : result A) : result' A :=
  match r with
  | Return a => Return' a
  | Raise e => Raise' (Shared e)
  end.

(** [l[0]] *)
Definition first {A} (l : list A) : result' A :=
  match l with
  | x :: _ => Return' x
  | [] => Raise' IndexError
  end.

(** [db_order], nested in [run_POM_file]: it ends with [return 0]. *)
Fixpoint db_order_from (i : Z) (es : list string) (db : string) : Z :=
  match es with
  | [] => 0
  | e :: es' =>
      if PyStr.contains e (PyStr.lower db) then i
      else db_order_from (i + 1) es' db
  end.

Definition db_order (db : string) : Z :=
  db_order_from 0 ["dev"; "tst"; "test"; "acc"; "prod"; "prd"] db.

Definition apex_profiles : list string := ["apex-export"; "apex-import"].
Definition db_profiles : list string :=
  ["db-install"; "db-test"; "db-generate-ddl-full"; "db-generate-ddl-incr"].

(** [process_POM(pom_file)] of this file: the properties are read with
    [properties[...]], the directory is used as it is echoed. *)
Definition process_POM (w : world) (pom_file : string)
    : result' (list string * list string * string) :=
  bind' (lift (oracle_tools_gui.determine_POM_settings w pom_file)) (fun st =>
  let '(properties, profiles) := st in
  bind'
    (if pom.issuperset profiles apex_profiles then Return' apex_profiles
     else if pom.issuperset profiles db_profiles then Return' db_profiles
     else Raise' (Shared (Exception (ProfilesNotSuperset profiles
                                       (list_to_set apex_profiles)
                                       (list_to_set db_profiles)))))
    (fun profiles =>
  bind' (lift (subscript properties "db.config.dir")) (fun dir =>
  bind' (lift (assert (truthy dir) (Return ConfigDirNotSet))) (fun _ =>
  bind' (lift (subscript properties "db.config.dir")) (fun dir =>
  let dbs : list string :=
    match iterdir w dir with
    | Some entries => name <$> filter (fun d => is_dir d = true) entries
    | None => []
    end in
  bind' (lift (assert (bool_decide (0 < length dbs)%nat)
                 (bind (subscript properties "db.config.dir")
                       (fun dir => Return (NoSubdirectories dir))))) (fun _ =>
  bind' (lift (subscript properties "db.proxy.username")) (fun db_proxy_username =>
  bind' (if truthy db_proxy_username then Return' tt else Raise' ProxyNotSet) (fun _ =>
  Return' (dbs, profiles, db_proxy_username))))))))).

(** What [run_POM_file] declares to its parser before [parse_args]: the
    choices and defaults of the arguments [action], [db] and [file], and
    the help of the password field. *)
Record form := Form {
  action_choices : list string;
  action_default : string;
  db_choices : list string;
  db_default : string;
  password_help : string;
  file_default : string
}.

Definition run_POM_file (w : world) (pom_file : string) : result' form :=
  bind' (process_POM w pom_file) (fun r =>
  let '(dbs, profiles, db_proxy_username) := r in
  let db_proxy_password_help :=
    "The password for database account " +:+ db_proxy_username in
  bind' (first profiles) (fun action =>
  let dbs_sorted := PySorted.sorted db_order dbs in
  bind' (first dbs_sorted) (fun db =>
  Return' (Form profiles action dbs_sorted db db_proxy_password_help pom_file)))).

(** The main block: what it goes on to do with [sys.argv]. *)
Inductive action :=
| ChooseFile                (* [get_POM_file(argv)], no argument being left *)
| RunForm (file : string)   (* [run_POM_file(argv[-1])] on the one argument left *)
| Build (cmd : string).     (* [subprocess.run(cmd, check=True, shell=True)] *)

Definition main (sys_argv : list string) : result' action :=
  let argv := filter (fun argc => argc ≠ "--") (tail sys_argv) in
  if bool_decide (length argv ≤ 1)%nat then
    match argv with
    | [] => Return' ChooseFile
    | file :: _ => Return' (RunForm file)
    end
  else
    match argv with
    | [profile; db; db_proxy_password; file] =>
        Return' (Build ("mvn -P" +:+ profile +:+ " -Ddb=" +:+ db
                        +:+ " -Ddb.proxy.password=" +:+ db_proxy_password
                        +:+ " --file " +:+ file))
    | _ => Raise' BareAssertionError
    end.

End gui.

(** ** What the scanner keeps true of its settings *)

Module Invariant.

(** Keys and profile ids are identifiers that are not empty; values are not
    empty and hold no newline. *)
Definition wf (st : settings) : Prop :=
  (∀ k v, st.1 !! k = Some v →
          k ≠ EmptyString ∧ ReProg.is_ident k = true
          ∧ v ≠ EmptyString ∧ ReProg.one_line v = true)
  ∧ (∀ p, p ∈ st.2 → p ≠ EmptyString ∧ ReProg.is_ident p = true).

End Invariant.

(** ** More sample runs *)

Module MoreSamples.

(** The four database profiles of [src/oracle-tools-gui.py] only. *)
Definition out_four : string :=
  Lines.unlines [Samples.announce "db-install"; Samples.announce "db-test";
                 Samples.announce "db-generate-ddl-full";
                 Samples.announce "db-generate-ddl-incr";
                 Samples.echo "db.config.dir" "/opt/conf";
                 Samples.echo "db.proxy.username" "proxyacct"].

Definition mixed_dirs : option (list dir_entry) :=
  Some [DirEntry "prod" true; DirEntry "Test-2" true; DirEntry "scratch" true;
        DirEntry "notes.txt" false; DirEntry "DEV" true; DirEntry "test-1" true].

(** Two echoes of [db.config.dir] on lines of their own, then other lines,
    then a third echo of it that no newline ends. *)
Definition out_last_echo : string :=
  Lines.unlines [Samples.echo "db.config.dir" "/old";
                 Samples.echo "db.username" "alice"]
  +:+ "[echoproperties] db.config.dir=C\:\\tmp\\conf"
  +:+ String Str.LF
        (Lines.unlines [Samples.announce "db-info";
                        Samples.echo "db.username" "bob"]
         +:+ "[echoproperties] db.config.dir=/not/terminated").

End MoreSamples.

(** * Properties *)

(** ** Strings *)

Module StrFacts.
Import Str.

Lemma app_cons c s t : String c s +:+ t = String c (s +:+ t).
Proof. reflexivity. Qed.

Lemma app_nil_l s : EmptyString +:+ s = s.
Proof. reflexivity. Qed.

Lemma app_nil_r s : s +:+ EmptyString = s.
Proof. induction s as [|c s IH]; [done|]. by rewrite app_cons, IH. Qed.

Lemma app_assoc s t u : (s +:+ t) +:+ u = s +:+ t +:+ u.
Proof. induction s as [|c s IH]; [done|]. by rewrite !app_cons, IH. Qed.

Lemma length_app s t : String.length (s +:+ t) = (String.length s + String.length t)%nat.
Proof. induction s as [|c s IH]; [done|]. rewrite app_cons. simpl. by rewrite IH. Qed.

Lemma take_app_length pre r :
  take (String.length (pre +:+ r) - String.length r) (pre +:+ r) = pre.
Proof.
  rewrite length_app.
  replace (String.length pre + String.length r - String.length r)%nat
    with (String.length pre) by lia.
  induction pre as [|c pre IH].
  - by destruct r.
  - rewrite app_cons. simpl. by rewrite IH.
Qed.

Lemma app_inv_head s t u : s +:+ t = s +:+ u → t = u.
Proof.
  induction s as [|c s IH]; [done|]. rewrite !app_cons. intros [= H]. auto.
Qed.

Lemma mem_app c s t : mem c (s +:+ t) = mem c s || mem c t.
Proof.
  induction s as [|d s IH]; [done|]. rewrite app_cons. simpl.
  by destruct (decide (c = d)).
Qed.

Lemma startswith_app p s : startswith p (p +:+ s) = true.
Proof.
  induction p as [|c p IH]; [done|]. rewrite app_cons. simpl.
  by rewrite decide_True.
Qed.

Lemma startswith_inv p s : startswith p s = true → ∃ s', s = p +:+ s'.
Proof.
  revert s. induction p as [|c p IH]; intros s H; [by exists s|].
  destruct s as [|d s]; [done|]. simpl in H.
  destruct (decide (c = d)) as [->|]; [|done].
  destruct (IH _ H) as [s' ->]. by exists s'.
Qed.

End StrFacts.

(** ** The matcher *)

Module ReFacts.
Import Re ReProg.

Lemma all_accept_app a s t :
  all_accept a (s +:+ t) = all_accept a s && all_accept a t.
Proof.
  induction s as [|c s IH]; [done|]. rewrite StrFacts.app_cons. simpl.
  by rewrite IH, andb_assoc.
Qed.

Lemma elem_of_star_rests a s r :
  r ∈ star_rests a s ↔ ∃ pre, s = pre +:+ r ∧ all_accept a pre = true.
Proof.
  induction s as [|c s IH]; simpl.
  - rewrite list_elem_of_singleton. split.
    + intros ->. by exists EmptyString.
    + intros ([|d pre] & H & _); [done|]. by rewrite StrFacts.app_cons in H.
  - destruct (accepts a c) eqn:Hc.
    + rewrite elem_of_app, list_elem_of_singleton, IH. split.
      * intros [(pre & -> & Hpre) | ->].
        -- exists (String c pre). split; [done|]. simpl. by rewrite Hc.
        -- by exists EmptyString.
      * intros ([|d pre] & H & Hpre).
        -- right. by rewrite StrFacts.app_nil_l in H.
        -- left. rewrite StrFacts.app_cons in H. injection H as -> ->.
           simpl in Hpre. apply andb_true_iff in Hpre as [_ Hpre]. eauto.
    + rewrite list_elem_of_singleton. split.
      * intros ->. by exists EmptyString.
      * intros ([|d pre] & H & Hpre); [done|].
        rewrite StrFacts.app_cons in H. injection H as -> ->.
        simpl in Hpre. by rewrite Hc in Hpre.
Qed.

Lemma elem_of_run_cons n prog s st x :
  x ∈ run (n :: prog) s st ↔ ∃ y, x ∈ run prog y.1 y.2 ∧ y ∈ step n s st.
Proof. simpl. apply list_elem_of_bind. Qed.

Lemma elem_of_run_char c prog s st x :
  x ∈ run (NAtom (AChar c) :: prog) s st ↔
  ∃ s', s = String c s' ∧ x ∈ run prog s' st.
Proof.
  rewrite elem_of_run_cons. simpl. split.
  - intros ([r st'] & Hx & Hy). destruct s as [|d s]; [by apply not_elem_of_nil in Hy|].
    case_bool_decide as Hd; [|by apply not_elem_of_nil in Hy].
    apply list_elem_of_singleton in Hy as [= -> ->]. subst d. eauto.
  - intros (s' & -> & Hx). exists (s', st). split; [done|].
    rewrite bool_decide_true by done. by apply list_elem_of_singleton.
Qed.

Lemma elem_of_run_lit p prog s st x :
  x ∈ run (lit p ++ prog) s st ↔ ∃ s', s = p +:+ s' ∧ x ∈ run prog s' st.
Proof.
  revert s. induction p as [|c p IH]; intros s.
  - simpl. split; [by exists s | by intros (s' & -> & ?)].
  - change (lit (String c p) ++ prog) with (NAtom (AChar c) :: (lit p ++ prog)).
    rewrite elem_of_run_char. split.
    + intros (s1 & -> & Hx). apply IH in Hx as (s' & -> & Hx). by exists s'.
    + intros (s' & -> & Hx). exists (p +:+ s'). split; [done|]. apply IH. eauto.
Qed.

Lemma elem_of_run_star a prog s st x :
  x ∈ run (NStar a :: prog) s st ↔
  ∃ pre r, s = pre +:+ r ∧ all_accept a pre = true ∧ x ∈ run prog r st.
Proof.
  rewrite elem_of_run_cons. simpl. split.
  - intros ([r st'] & Hx & Hy).
    apply list_elem_of_fmap in Hy as (r' & [= -> ->] & Hr).
    apply elem_of_star_rests in Hr as (pre & -> & Hpre). by exists pre, r'.
  - intros (pre & r & -> & Hpre & Hx). exists (r, st). split; [done|].
    apply list_elem_of_fmap. exists r. split; [done|].
    apply elem_of_star_rests. eauto.
Qed.

Lemma elem_of_run_plus a prog s st x :
  x ∈ run (NPlus a :: prog) s st ↔
  ∃ pre r, s = pre +:+ r ∧ pre ≠ EmptyString ∧ all_accept a pre = true
           ∧ x ∈ run prog r st.
Proof.
  rewrite elem_of_run_cons. simpl. split.
  - intros ([r st'] & Hx & Hy). destruct s as [|c s]; [by apply not_elem_of_nil in Hy|].
    destruct (accepts a c) eqn:Hc; [|by apply not_elem_of_nil in Hy].
    apply list_elem_of_fmap in Hy as (r' & [= -> ->] & Hr).
    apply elem_of_star_rests in Hr as (pre & -> & Hpre).
    exists (String c pre), r'. simpl. by rewrite Hc.
  - intros ([|c pre] & r & -> & Hne & Hpre & Hx); [done|].
    simpl in Hpre. apply andb_true_iff in Hpre as [Hc Hpre].
    exists (r, st). split; [done|]. rewrite StrFacts.app_cons, Hc.
    apply list_elem_of_fmap. exists r. split; [done|].
    apply elem_of_star_rests. eauto.
Qed.

Lemma elem_of_run_open prog s st x :
  x ∈ run (NOpen :: prog) s st ↔ x ∈ run prog s (MState (Some s) (m_groups st)).
Proof.
  rewrite elem_of_run_cons. cbn [step]. split.
  - intros (y & Hx & Hy). by apply list_elem_of_singleton in Hy as ->.
  - intros Hx. eexists. split; [|by apply list_elem_of_singleton]. done.
Qed.

Lemma elem_of_run_close prog s s0 g x :
  x ∈ run (NClose :: prog) s (MState (Some s0) g) ↔
  x ∈ run prog s
        (MState None (g ++ [Str.take (String.length s0 - String.length s) s0])).
Proof.
  rewrite elem_of_run_cons. cbn [step m_open m_groups]. split.
  - intros (y & Hx & Hy). by apply list_elem_of_singleton in Hy as ->.
  - intros Hx. eexists. split; [|by apply list_elem_of_singleton]. done.
Qed.

(** A group around a repeated character: the group's text is what the
    repetition consumed. *)
Lemma elem_of_run_group a prog s st x :
  x ∈ run (NOpen :: NPlus a :: NClose :: prog) s st ↔
  ∃ k r, s = k +:+ r ∧ k ≠ EmptyString ∧ all_accept a k = true
         ∧ x ∈ run prog r (MState None (m_groups st ++ [k])).
Proof.
  rewrite elem_of_run_open, elem_of_run_plus. split.
  - intros (k & r & -> & Hne & Hk & Hx). apply elem_of_run_close in Hx.
    rewrite StrFacts.take_app_length in Hx. by exists k, r.
  - intros (k & r & -> & Hne & Hk & Hx). exists k, r. do 3 (split; [done|]).
    apply elem_of_run_close. by rewrite StrFacts.take_app_length.
Qed.

Lemma elem_of_run_eol s st x :
  x ∈ run [NEol] s st ↔
  (s = EmptyString ∨ s = String Str.LF EmptyString) ∧ x = (s, st).
Proof.
  rewrite elem_of_run_cons. simpl. split.
  - intros (y & Hx & Hy). apply list_elem_of_singleton in Hx as ->.
    destruct (bool_decide (s = EmptyString) || _) eqn:Hs;
      [|by apply not_elem_of_nil in Hy].
    apply list_elem_of_singleton in Hy as ->. split; [|done].
    apply orb_true_iff in Hs as [Hs|Hs]; apply bool_decide_eq_true in Hs; auto.
  - intros [Hs ->]. exists (s, st). split; [by apply list_elem_of_singleton|].
    destruct Hs as [-> | ->]; by apply list_elem_of_singleton.
Qed.

Lemma elem_of_run_nil s st x : x ∈ run [] s st ↔ x = (s, st).
Proof. simpl. apply list_elem_of_singleton. Qed.

(** A repetition that is followed by a character outside its set can end
    in one place only. *)
Lemma all_accept_split_unique a k k' c c' r r' :
  all_accept a k = true → all_accept a k' = true →
  accepts a c = false → accepts a c' = false →
  k +:+ String c r = k' +:+ String c' r' → k = k' ∧ c = c' ∧ r = r'.
Proof.
  intros Hk Hk' Hc Hc'. revert k' Hk'.
  induction k as [|d k IH]; intros [|d' k'] Hk' H;
    rewrite ?StrFacts.app_cons, ?StrFacts.app_nil_l in H; simplify_eq.
  - done.
  - simpl in Hk'. by rewrite Hc in Hk'.
  - simpl in Hk. by rewrite Hc' in Hk.
  - simpl in Hk, Hk'. apply andb_true_iff in Hk as [_ Hk].
    apply andb_true_iff in Hk' as [_ Hk'].
    destruct (IH Hk k' Hk' ltac:(done)) as (-> & -> & ->). done.
Qed.

Lemma match_here_elem_of prog s m :
  match_here prog s = Some m →
  ∃ x, x ∈ run prog s (MState None []) ∧ m = m_groups x.2.
Proof.
  unfold match_here. intros H. apply fmap_Some in H as (x & Hx & ->).
  apply head_Some_elem_of in Hx. eauto.
Qed.

(** When every alternative carries the same groups, these are the groups
    of the match. *)
Lemma match_here_unique prog s g :
  (∃ x, x ∈ run prog s (MState None [])) →
  (∀ x, x ∈ run prog s (MState None []) → m_groups x.2 = g) →
  match_here prog s = Some g.
Proof.
  intros [x Hx] Hall. unfold match_here.
  destruct (run prog s (MState None [])) as [|y l] eqn:Hrun.
  - by apply not_elem_of_nil in Hx.
  - simpl. f_equal. apply Hall. left.
Qed.

Lemma match_here_None prog s :
  (∀ x, x ∉ run prog s (MState None [])) → match_here prog s = None.
Proof.
  intros Hall. unfold match_here.
  destruct (run prog s (MState None [])) as [|y l] eqn:Hrun; [done|].
  destruct (Hall y). left.
Qed.

Lemma search_from_Some prog s m :
  search_from prog s = Some m →
  ∃ pre s', s = pre +:+ s' ∧ match_here prog s' = Some m.
Proof.
  induction s as [|c s IH]; simpl; destruct (match_here prog _) eqn:Hm.
  - intros [= ->]. by exists EmptyString, EmptyString.
  - done.
  - intros [= ->]. by exists EmptyString, (String c s).
  - intros H. destruct (IH H) as (pre & s' & -> & Hs').
    by exists (String c pre), s'.
Qed.

Lemma search_from_here prog s m :
  match_here prog s = Some m → search_from prog s = Some m.
Proof. intros H. destruct s; simpl; by rewrite H. Qed.

Lemma search_from_None prog s :
  (∀ pre s', s = pre +:+ s' → match_here prog s' = None) →
  search_from prog s = None.
Proof.
  induction s as [|c s IH]; intros H; simpl.
  - by rewrite (H EmptyString EmptyString).
  - rewrite (H EmptyString (String c s)) by done.
    apply IH. intros pre s' ->. by apply (H (String c pre)).
Qed.

End ReFacts.

(** ** The two patterns of the scanner *)

Module Patterns.
Import Re ReProg ReFacts.

Lemma profile_pattern_compiles : compile pom.profile_pattern = Some profile_prog.
Proof. reflexivity. Qed.

Lemma property_pattern_compiles : compile pom.property_pattern = Some property_prog.
Proof. reflexivity. Qed.

Lemma search_profile_eq line :
  search pom.profile_pattern line = search_from profile_prog line.
Proof. reflexivity. Qed.

Lemma match_property_eq line :
  match_ pom.property_pattern line = match_here property_prog line.
Proof. reflexivity. Qed.

Lemma one_line_mem s : one_line s = negb (Str.mem Str.LF s).
Proof.
  induction s as [|c s IH]; [done|]. unfold one_line in *. simpl. rewrite IH.
  destruct (decide (Str.LF = c)) as [<-|Hc].
  - by rewrite bool_decide_true.
  - by rewrite bool_decide_false.
Qed.

Lemma elem_of_run_profile s x :
  x ∈ run profile_prog s (MState None []) ↔
  ∃ k mid rest,
    s = "Profile Id: " +:+ k +:+ " (Active: " +:+ mid +:+ ", Source: pom)" +:+ rest
    ∧ k ≠ EmptyString ∧ is_ident k = true ∧ one_line mid = true
    ∧ x = (rest, MState None [k]).
Proof.
  unfold profile_prog. rewrite elem_of_run_lit. split.
  - intros (s1 & -> & H). apply elem_of_run_group in H as (k & s2 & -> & Hne & Hk & H).
    apply elem_of_run_lit in H as (s3 & -> & H).
    apply elem_of_run_star in H as (mid & s4 & -> & Hmid & H).
    apply elem_of_run_lit in H as (rest & -> & H).
    apply elem_of_run_nil in H as ->. by exists k, mid, rest.
  - intros (k & mid & rest & -> & Hne & Hk & Hmid & ->). eexists. split; [done|].
    apply elem_of_run_group. exists k. eexists. do 3 (split; [done|]).
    apply elem_of_run_lit. eexists. split; [done|].
    apply elem_of_run_star. exists mid. eexists. do 2 (split; [done|]).
    apply elem_of_run_lit. eexists. split; [done|]. by apply elem_of_run_nil.
Qed.

Lemma elem_of_run_property s x :
  x ∈ run property_prog s (MState None []) ↔
  ∃ k v r,
    s = "[echoproperties] " +:+ k +:+ "=" +:+ v +:+ r
    ∧ k ≠ EmptyString ∧ is_ident k = true
    ∧ v ≠ EmptyString ∧ one_line v = true
    ∧ (r = EmptyString ∨ r = String Str.LF EmptyString)
    ∧ x = (r, MState None [k; v]).
Proof.
  unfold property_prog. rewrite elem_of_run_lit. split.
  - intros (s1 & -> & H). apply elem_of_run_group in H as (k & s2 & -> & Hne & Hk & H).
    apply elem_of_run_lit in H as (s3 & -> & H).
    apply elem_of_run_group in H as (v & r & -> & Hv & Hline & H).
    apply elem_of_run_eol in H as [Hr ->]. by exists k, v, r.
  - intros (k & v & r & -> & Hne & Hk & Hv & Hline & Hr & ->).
    eexists. split; [done|].
    apply elem_of_run_group. exists k. eexists. do 3 (split; [done|]).
    apply elem_of_run_lit. eexists. split; [done|].
    apply elem_of_run_group. exists v, r. do 3 (split; [done|]).
    by apply elem_of_run_eol.
Qed.

(** What a successful [re.search] of the profile pattern tells. *)
Lemma search_profile_Some line m :
  search pom.profile_pattern line = Some m →
  ∃ pre k mid rest,
    line = pre +:+ "Profile Id: " +:+ k +:+ " (Active: " +:+ mid
               +:+ ", Source: pom)" +:+ rest
    ∧ k ≠ EmptyString ∧ is_ident k = true ∧ one_line mid = true ∧ m = [k].
Proof.
  rewrite search_profile_eq. intros H.
  apply search_from_Some in H as (pre & s' & -> & H).
  apply match_here_elem_of in H as (x & Hx & ->).
  apply elem_of_run_profile in Hx as (k & mid & rest & -> & ? & ? & ? & ->).
  by exists pre, k, mid, rest.
Qed.

(** What a successful [re.match] of the property pattern tells. *)
Lemma match_property_Some line m :
  match_ pom.property_pattern line = Some m →
  ∃ k v r,
    line = "[echoproperties] " +:+ k +:+ "=" +:+ v +:+ r
    ∧ k ≠ EmptyString ∧ is_ident k = true
    ∧ v ≠ EmptyString ∧ one_line v = true
    ∧ (r = EmptyString ∨ r = String Str.LF EmptyString)
    ∧ m = [k; v].
Proof.
  rewrite match_property_eq. intros H.
  apply match_here_elem_of in H as (x & Hx & ->).
  apply elem_of_run_property in Hx as (k & v & r & -> & ? & ? & ? & ? & ? & ->).
  by exists k, v, r.
Qed.

Lemma ident_not_eq : accepts ident "="%char = false.
Proof. reflexivity. Qed.

Lemma ident_not_space : accepts ident " "%char = false.
Proof. reflexivity. Qed.

(** A well-formed property echo is matched, with its key and value as the
    two groups. *)
Lemma match_property_line k v :
  k ≠ EmptyString → is_ident k = true → v ≠ EmptyString → one_line v = true →
  match_ pom.property_pattern ("[echoproperties] " +:+ k +:+ "=" +:+ v)
  = Some [k; v].
Proof.
  intros Hk Hik Hv Hlv. rewrite match_property_eq.
  apply match_here_unique.
  - eexists. apply elem_of_run_property. exists k, v, EmptyString.
    rewrite StrFacts.app_nil_r. eauto 10.
  - intros x Hx.
    apply elem_of_run_property in Hx as (k' & v' & r & Heq & ? & ? & ? & ? & Hr & ->).
    apply StrFacts.app_inv_head in Heq.
    change ("=" +:+ v) with (String "=" v) in Heq.
    change ("=" +:+ v' +:+ r) with (String "=" (v' +:+ r)) in Heq.
    apply all_accept_split_unique with (a := ident) in Heq as (-> & _ & ->);
      [|done..].
    destruct Hr as [-> | ->].
    + by rewrite StrFacts.app_nil_r.
    + unfold one_line in Hlv. rewrite all_accept_app in Hlv.
      apply andb_true_iff in Hlv as [_ Hlv]. done.
Qed.

(** An echo with nothing after the equals sign is not matched. *)
Lemma match_property_empty_value k :
  is_ident k = true →
  match_ pom.property_pattern ("[echoproperties] " +:+ k +:+ "=") = None.
Proof.
  intros Hik. rewrite match_property_eq.
  apply match_here_None. intros x Hx.
  apply elem_of_run_property in Hx as (k' & v' & r & Heq & ? & ? & Hv & ? & Hr & ->).
  apply StrFacts.app_inv_head in Heq.
  change ("=" +:+ v' +:+ r) with (String "=" (v' +:+ r)) in Heq.
  apply all_accept_split_unique with (a := ident) in Heq as (_ & _ & Heq);
    [|done..].
  destruct v'; [done|]. by rewrite StrFacts.app_cons in Heq.
Qed.

(** A line without a colon holds no profile announcement. *)
Lemma search_profile_no_colon line :
  Str.mem ":" line = false → search pom.profile_pattern line = None.
Proof.
  intros Hmem. destruct (search _ line) as [m|] eqn:H; [|done].
  apply search_profile_Some in H as (pre & k & mid & rest & -> & _).
  rewrite !StrFacts.mem_app in Hmem. simpl in Hmem.
  rewrite orb_true_r in Hmem. done.
Qed.

(** A well-formed profile announcement is found, with the profile id as
    its group. *)
Lemma search_profile_line k mid :
  k ≠ EmptyString → is_ident k = true → one_line mid = true →
  search pom.profile_pattern
    ("Profile Id: " +:+ k +:+ " (Active: " +:+ mid +:+ ", Source: pom)")
  = Some [k].
Proof.
  intros Hk Hik Hmid. rewrite search_profile_eq.
  apply search_from_here, match_here_unique.
  - eexists. apply elem_of_run_profile. exists k, mid, EmptyString.
    rewrite StrFacts.app_nil_r. eauto 10.
  - intros x Hx.
    apply elem_of_run_profile in Hx as (k' & mid' & rest & Heq & ? & ? & ? & ->).
    apply StrFacts.app_inv_head in Heq.
    change (" (Active: " +:+ mid +:+ ", Source: pom)")
      with (String " " ("(Active: " +:+ mid +:+ ", Source: pom)")) in Heq.
    change (" (Active: " +:+ mid' +:+ ", Source: pom)" +:+ rest)
      with (String " " ("(Active: " +:+ mid' +:+ ", Source: pom)" +:+ rest)) in Heq.
    by apply all_accept_split_unique with (a := ident) in Heq as (-> & _ & _).
Qed.

End Patterns.

(** ** The scanner of [src/utils/pom.py] seen line by line *)

Module Scanner.
Import pom Lines.

Lemma scan_lines stdout line st :
  scan stdout line st = process_lines st (lines_from line stdout).
Proof.
  revert line st. induction stdout as [|ch rest IH]; intros line st; [done|].
  simpl. case_bool_decide; [apply IH|]. rewrite IH. done.
Qed.

Lemma parse_lines stdout : parse stdout = process_lines (∅, ∅) (lines stdout).
Proof. apply scan_lines. Qed.

Lemma scan_app s t line st :
  scan (s +:+ t) line st = scan t (residual line s) (scan s line st).
Proof.
  revert line st. induction s as [|ch s IH]; intros line st; [done|].
  rewrite StrFacts.app_cons. simpl. case_bool_decide; apply IH.
Qed.

Lemma lines_from_app s t line :
  lines_from line (s +:+ t) = lines_from line s ++ lines_from (residual line s) t.
Proof.
  revert line. induction s as [|ch s IH]; intros line; [done|].
  rewrite StrFacts.app_cons. simpl. case_bool_decide; [apply IH|].
  by rewrite IH.
Qed.

(** Text without a newline is only collected. *)
Lemma scan_one_line tail line st :
  ReProg.one_line tail = true → scan tail line st = st.
Proof.
  revert line. induction tail as [|ch tail IH]; intros line H; [done|].
  unfold ReProg.one_line in H. simpl in H.
  apply andb_true_iff in H as [Hch H]. apply negb_true_iff in Hch.
  apply bool_decide_eq_false in Hch. simpl.
  rewrite bool_decide_true by done. by apply IH.
Qed.

Lemma lines_from_one_line tail line :
  ReProg.one_line tail = true →
  lines_from line tail = [] ∧ residual line tail = line +:+ tail.
Proof.
  revert line. induction tail as [|ch tail IH]; intros line H.
  - by rewrite StrFacts.app_nil_r.
  - unfold ReProg.one_line in H. simpl in H.
    apply andb_true_iff in H as [Hch H]. apply negb_true_iff in Hch.
    apply bool_decide_eq_false in Hch. simpl.
    rewrite bool_decide_true by done.
    destruct (IH (line +:+ String ch EmptyString) H) as [-> ->].
    by rewrite StrFacts.app_assoc.
Qed.

Lemma lines_unlines ls tail :
  Forall (λ l, ReProg.one_line l = true) ls → ReProg.one_line tail = true →
  lines (unlines ls +:+ tail) = ls.
Proof.
  intros Hls Htail. unfold lines. induction Hls as [|l ls Hl Hls IH]; simpl.
  - by apply lines_from_one_line.
  - rewrite StrFacts.app_assoc, lines_from_app.
    destruct (lines_from_one_line l EmptyString Hl) as [-> ->].
    rewrite StrFacts.app_cons. simpl. by rewrite IH.
Qed.

Lemma process_line_eq line st :
  process_line line st =
  (match echo_of line with Some (k, v) => <[k := v]> st.1 | None => st.1 end,
   match profile_of line with Some p => {[ p ]} ∪ st.2 | None => st.2 end).
Proof.
  destruct st as [properties profiles]. unfold process_line, echo_of, profile_of.
  destruct (Re.search _ _); [done|]. by destruct (Re.match_ _ _).
Qed.

Lemma process_lines_cons st l ls :
  process_lines st (l :: ls) = process_lines (process_line l st) ls.
Proof. done. Qed.

(** The profile set is the union of what the lines announce. *)
Lemma process_lines_profiles st ls :
  (process_lines st ls).2 = st.2 ∪ list_to_set (omap profile_of ls).
Proof.
  revert st. induction ls as [|l ls IH]; intros st.
  - cbn [process_lines foldl omap list_omap]. rewrite list_to_set_nil.
    by rewrite (right_id_L ∅ (∪)).
  - rewrite process_lines_cons, IH, process_line_eq.
    cbn [omap list_omap snd]. generalize (omap profile_of ls). intros ps.
    destruct (profile_of l) as [p|]; [|done].
    rewrite list_to_set_cons. generalize (list_to_set ps : gset string).
    destruct st as [properties profiles]. cbn [snd]. intros X.
    rewrite (assoc_L (∪)). f_equal. apply (comm_L (∪)).
Qed.

(** A key maps to the last value echoed for it. *)
Lemma process_lines_lookup st ls key :
  (process_lines st ls).1 !! key =
  from_option Some (st.1 !! key) (last (echoes key ls)).
Proof.
  revert st. induction ls as [|l ls IH]; intros st; [done|].
  rewrite process_lines_cons, IH, process_line_eq. unfold echoes.
  cbn [omap list_omap fst]. fold (echoes key ls).
  generalize (echoes key ls). intros E.
  destruct (echo_of l) as [[k v]|]; [|done].
  destruct (decide (k = key)) as [->|Hk].
  - rewrite lookup_insert_eq.
    destruct E as [|y E]; [done|]. rewrite last_cons_cons.
    destruct (last (y :: E)) eqn:HL; [done|]. by apply last_None in HL.
  - by rewrite lookup_insert_ne.
Qed.

(** A property of the settings that every line keeps holds after the
    loop. *)
Lemma scan_invariant (P : settings → Prop) :
  (∀ line st, P st → P (process_line line st)) →
  ∀ stdout line st, P st → P (scan stdout line st).
Proof.
  intros Hstep stdout. induction stdout as [|ch rest IH]; intros line st Hst;
    [done|].
  simpl. case_bool_decide; auto.
Qed.

End Scanner.

(** ** [process_POM] step by step *)

Module Steps.
Import pom Outcome.

Lemma truthy_eq s : truthy s = negb (bool_decide (s = EmptyString)).
Proof. done. Qed.

Lemma determine_POM_settings_Return w pom_file override st :
  determine_POM_settings w pom_file override = Return st ↔
  returncode (popen w (command pom_file override)) = 0
  ∧ st = parse (stdout (popen w (command pom_file override))).
Proof.
  unfold determine_POM_settings. case_bool_decide as Hrc.
  - split; [intros [= <-]; done | intros [_ ->]; done].
  - split; [done | intros [? _]; done].
Qed.

Lemma process_POM_classified w pom_file override properties profiles :
  determine_POM_settings w pom_file override = Return (properties, profiles) →
  process_POM w pom_file override =
  if issuperset profiles apex_profiles then finish w override properties apex_profiles
  else if issuperset profiles db_profiles then finish w override properties db_profiles
  else Raise (Exception (ProfilesNotSuperset profiles (list_to_set apex_profiles)
                           (list_to_set db_profiles))).
Proof.
  intros Hdet. unfold process_POM. rewrite Hdet. cbn [bind].
  assert (∀ bundle,
    bind (Return bundle) (λ profiles0 : list string,
      let db_config_dir0 : string :=
        if truthy_opt override then default EmptyString override
        else Str.replace "\\" "\"
               (Str.replace "\:" ":" (get properties "db.config.dir" EmptyString)) in
      bind (assert (truthy db_config_dir0) (Return ConfigDirNotSet)) (λ _,
      let dbs : list string :=
        match iterdir w db_config_dir0 with
        | Some entries => name <$> filter (λ d, is_dir d = true) entries
        | None => []
        end in
      bind (assert (bool_decide (0 < length dbs)%nat)
             (bind (subscript properties "db.config.dir")
                   (λ dir, Return (NoSubdirectories dir)))) (λ _,
      let db_proxy_username := get properties "db.proxy.username" EmptyString in
      let db_username := get properties "db.username" EmptyString in
      bind (assert (truthy db_proxy_username || truthy db_username)
             (Return (AccountNotSet db_proxy_username db_username))) (λ _,
      Return (db_config_dir0, dbs, profiles0, db_proxy_username, db_username)))))
    = finish w override properties bundle) as Hfin.
  { intros bundle. cbn [bind]. unfold finish, get.
    assert ((if truthy_opt override then default EmptyString override
             else Str.replace "\\" "\"
                    (Str.replace "\:" ":"
                       (default EmptyString (properties !! "db.config.dir"))))
            = resolved_dir override properties) as ->.
    { unfold resolved_dir, truthy_opt, truthy, normalize.
      destruct override as [d|]; [|done]. simpl. by case_bool_decide. }
    generalize (resolved_dir override properties). intros dir.
    rewrite !truthy_eq. unfold targets.
    destruct (bool_decide (dir = EmptyString)); [done|]. cbn [negb assert bind].
    generalize (match iterdir w dir with
                | Some entries => name <$> filter (λ d, is_dir d = true) entries
                | None => []
                end). intros dbs.
    destruct dbs as [|db dbs].
    - cbn [length]. rewrite bool_decide_false by lia. cbn [assert bind].
      unfold subscript. by destruct (properties !! "db.config.dir").
    - cbn [length]. rewrite bool_decide_true by lia. cbn [assert bind].
      by destruct (bool_decide (_ = EmptyString)), (bool_decide (_ = EmptyString)). }
  destruct (issuperset profiles apex_profiles); [apply Hfin|].
  destruct (issuperset profiles db_profiles); [apply Hfin|]. done.
Qed.

Lemma finish_Return w override properties bundle t :
  finish w override properties bundle = Return t ↔
  resolved_dir override properties ≠ EmptyString
  ∧ targets w (resolved_dir override properties) ≠ []
  ∧ ¬ (default EmptyString (properties !! "db.proxy.username") = EmptyString
       ∧ default EmptyString (properties !! "db.username") = EmptyString)
  ∧ t = (resolved_dir override properties,
         targets w (resolved_dir override properties), bundle,
         default EmptyString (properties !! "db.proxy.username"),
         default EmptyString (properties !! "db.username")).
Proof.
  unfold finish. generalize (resolved_dir override properties). intros dir.
  generalize (targets w dir). intros dbs.
  generalize (default EmptyString (properties !! "db.proxy.username")).
  generalize (default EmptyString (properties !! "db.username")).
  intros user proxy.
  case_bool_decide as Hdir; [naive_solver|].
  destruct dbs as [|db dbs].
  { destruct (properties !! "db.config.dir"); naive_solver. }
  do 2 case_bool_decide; simpl; naive_solver.
Qed.

Lemma finish_AccountNotSet w override properties bundle a b :
  finish w override properties bundle = Raise (AssertionError (AccountNotSet a b)) ↔
  resolved_dir override properties ≠ EmptyString
  ∧ targets w (resolved_dir override properties) ≠ []
  ∧ default EmptyString (properties !! "db.proxy.username") = EmptyString
  ∧ default EmptyString (properties !! "db.username") = EmptyString
  ∧ a = EmptyString ∧ b = EmptyString.
Proof.
  unfold finish. generalize (resolved_dir override properties). intros dir.
  generalize (targets w dir). intros dbs.
  generalize (default EmptyString (properties !! "db.proxy.username")).
  generalize (default EmptyString (properties !! "db.username")).
  intros user proxy.
  case_bool_decide as Hdir; [naive_solver|].
  destruct dbs as [|db dbs].
  { destruct (properties !! "db.config.dir"); naive_solver. }
  do 2 case_bool_decide; simpl; naive_solver.
Qed.

Lemma finish_not_Exception w override properties bundle msg :
  finish w override properties bundle ≠ Raise (Exception msg).
Proof.
  unfold finish. case_bool_decide; [done|].
  destruct (targets w _); [by destruct (properties !! "db.config.dir")|].
  by destruct (_ && _).
Qed.

(** In a sample run the scan gives the settings parsed from the output. *)
Lemma scanned_run_with out entries pom_file override :
  determine_POM_settings (Samples.run_with out entries) pom_file override
  = Return ((parse out).1, (parse out).2).
Proof.
  apply determine_POM_settings_Return. split; [done|].
  unfold Samples.run_with. cbn [popen stdout]. by destruct (parse out).
Qed.

Lemma issuperset_true profiles l :
  issuperset profiles l = true ↔ list_to_set l ⊆ profiles.
Proof. apply bool_decide_eq_true. Qed.

Lemma issuperset_false profiles l :
  issuperset profiles l = false ↔ ¬ list_to_set l ⊆ profiles.
Proof. apply bool_decide_eq_false. Qed.

End Steps.

(** * The properties of the introspection *)

Section classification.
Import pom Outcome Lines Samples.

Variables (w : world) (pom_file : string) (override : option string).
Variables (properties : gmap string string) (profiles : gset string).

(** The scan of Maven's output gave [properties] and [profiles]. *)
Hypothesis scanned :
  determine_POM_settings w pom_file override = Return (properties, profiles).

Let dir := resolved_dir override properties.
Let proxy := default EmptyString (properties !! "db.proxy.username").
Let user := default EmptyString (properties !! "db.username").

(** C1: when the profile set read from Maven's output contains neither the
    Apex bundle nor the database bundle, [process_POM] raises the
    exception whose message carries that set and the two bundles, and so
    returns no tuple. *)
Theorem process_POM_neither_bundle :
  ¬ list_to_set apex_profiles ⊆ profiles →
  ¬ list_to_set db_profiles ⊆ profiles →
  process_POM w pom_file override =
    Raise (Exception (ProfilesNotSuperset profiles
                        (list_to_set ["apex-export"; "apex-import"])
                        (list_to_set ["db-info"; "db-install"; "db-code-check";
                                      "db-test"; "db-generate-ddl-full";
                                      "db-generate-ddl-incr"])))
  ∧ ∀ t, process_POM w pom_file override ≠ Return t.
Proof.
  intros Hapex Hdb. rewrite (Steps.process_POM_classified _ _ _ _ _ scanned).
  apply Steps.issuperset_false in Hapex, Hdb. rewrite Hapex, Hdb. done.
Qed.

(** C2: when the profile set contains the Apex bundle, whether or not it
    also contains the database bundle, the bundle in the tuple that
    [process_POM] returns is the Apex bundle in its declared order; the
    exception of the classification is not raised, and the tuple is
    returned as soon as the directory, its listing and the account are
    there. *)
Theorem process_POM_apex_first :
  list_to_set apex_profiles ⊆ profiles →
  (∀ t, process_POM w pom_file override = Return t →
        bundle_of t = ["apex-export"; "apex-import"])
  ∧ (∀ msg, process_POM w pom_file override ≠ Raise (Exception msg))
  ∧ (dir ≠ EmptyString → targets w dir ≠ [] →
     ¬ (proxy = EmptyString ∧ user = EmptyString) →
     process_POM w pom_file override =
       Return (dir, targets w dir, ["apex-export"; "apex-import"], proxy, user)).
Proof.
  intros Hapex. rewrite (Steps.process_POM_classified _ _ _ _ _ scanned).
  apply Steps.issuperset_true in Hapex. rewrite Hapex. split_and!.
  - intros t Ht. by apply Steps.finish_Return in Ht as (_ & _ & _ & ->).
  - intros msg. apply Steps.finish_not_Exception.
  - intros. by apply Steps.finish_Return.
Qed.

(** C3: when the profile set contains the six database profiles and not
    the Apex bundle, the bundle in the tuple that [process_POM] returns is
    the database bundle in its declared order, never the Apex bundle; the
    tuple is returned as soon as the directory, its listing and the
    account are there.  The profile set, and with it the choice, does not
    depend on the order of the lines that Maven printed. *)
Theorem process_POM_database_bundle :
  list_to_set db_profiles ⊆ profiles →
  ¬ list_to_set apex_profiles ⊆ profiles →
  (∀ t, process_POM w pom_file override = Return t →
        bundle_of t = ["db-info"; "db-install"; "db-code-check"; "db-test";
                       "db-generate-ddl-full"; "db-generate-ddl-incr"]
        ∧ bundle_of t ≠ apex_profiles)
  ∧ (∀ msg, process_POM w pom_file override ≠ Raise (Exception msg))
  ∧ (dir ≠ EmptyString → targets w dir ≠ [] →
     ¬ (proxy = EmptyString ∧ user = EmptyString) →
     process_POM w pom_file override =
       Return (dir, targets w dir,
               ["db-info"; "db-install"; "db-code-check"; "db-test";
                "db-generate-ddl-full"; "db-generate-ddl-incr"], proxy, user))
  ∧ (∀ ls ls', ls ≡ₚ ls' → Forall (λ l, ReProg.one_line l = true) ls →
     (parse (unlines ls)).2 = (parse (unlines ls')).2).
Proof.
  intros Hdb Hapex. rewrite (Steps.process_POM_classified _ _ _ _ _ scanned).
  apply Steps.issuperset_true in Hdb. apply Steps.issuperset_false in Hapex.
  rewrite Hapex, Hdb. split_and!.
  - intros t Ht. by apply Steps.finish_Return in Ht as (_ & _ & _ & ->).
  - intros msg. apply Steps.finish_not_Exception.
  - intros. by apply Steps.finish_Return.
  - intros ls ls' Hperm Hls.
    assert (Forall (λ l, ReProg.one_line l = true) ls') as Hls'
      by by rewrite <- Hperm.
    rewrite !Scanner.parse_lines.
    rewrite <- (StrFacts.app_nil_r (unlines ls)), <- (StrFacts.app_nil_r (unlines ls')).
    rewrite !Scanner.lines_unlines by done.
    rewrite !Scanner.process_lines_profiles. by rewrite Hperm.
Qed.

(** C4: with a directory given by the caller, no [db.config.dir] among the
    properties and nothing listed in the directory, [process_POM] raises
    [KeyError] while it builds the message of its assertion. *)
Theorem process_POM_no_targets_KeyError d :
  list_to_set apex_profiles ⊆ profiles ∨ list_to_set db_profiles ⊆ profiles →
  override = Some d → d ≠ EmptyString →
  properties !! "db.config.dir" = None →
  targets w d = [] →
  process_POM w pom_file override = Raise (KeyError "db.config.dir").
Proof.
  intros Hcl -> Hd Hkey Hdbs.
  rewrite (Steps.process_POM_classified _ _ _ _ _ scanned).
  assert (∀ bundle, finish w (Some d) properties bundle
                    = Raise (KeyError "db.config.dir")) as Hfin.
  { intros bundle. unfold finish, resolved_dir.
    rewrite !(bool_decide_false (d = EmptyString)) by done.
    by rewrite Hdbs, Hkey. }
  destruct (issuperset profiles apex_profiles) eqn:Ha; [apply Hfin|].
  destruct (issuperset profiles db_profiles) eqn:Hb; [apply Hfin|].
  apply Steps.issuperset_false in Ha, Hb. by destruct Hcl.
Qed.

(** With [db.config.dir] among the properties, the same situation raises
    the assertion, with the value of the property in its message. *)
Lemma process_POM_no_targets_AssertionError v :
  list_to_set apex_profiles ⊆ profiles ∨ list_to_set db_profiles ⊆ profiles →
  dir ≠ EmptyString →
  properties !! "db.config.dir" = Some v →
  targets w dir = [] →
  process_POM w pom_file override = Raise (AssertionError (NoSubdirectories v)).
Proof.
  intros Hcl Hd Hkey Hdbs.
  rewrite (Steps.process_POM_classified _ _ _ _ _ scanned).
  assert (∀ bundle, finish w override properties bundle
                    = Raise (AssertionError (NoSubdirectories v))) as Hfin.
  { intros bundle. unfold finish. fold dir.
    rewrite (bool_decide_false (dir = EmptyString)) by done.
    by rewrite Hdbs, Hkey. }
  destruct (issuperset profiles apex_profiles) eqn:Ha; [apply Hfin|].
  destruct (issuperset profiles db_profiles) eqn:Hb; [apply Hfin|].
  apply Steps.issuperset_false in Ha, Hb. by destruct Hcl.
Qed.

End classification.

Lemma process_POM_neither_bundle_witness :
  let w := Samples.run_with Samples.out_neither Samples.three_dirs in
  pom.process_POM w "pom.xml" None =
    Raise (Exception (ProfilesNotSuperset
                        (pom.parse Samples.out_neither).2
                        (list_to_set ["apex-export"; "apex-import"])
                        (list_to_set ["db-info"; "db-install"; "db-code-check";
                                      "db-test"; "db-generate-ddl-full";
                                      "db-generate-ddl-incr"])))
  ∧ ∀ t, pom.process_POM w "pom.xml" None ≠ Return t.
Proof.
  apply (process_POM_neither_bundle _ _ _ _ _ (Steps.scanned_run_with _ _ _ _)).
  - apply Steps.issuperset_false. vm_compute. reflexivity.
  - apply Steps.issuperset_false. vm_compute. reflexivity.
Defined.

Lemma process_POM_apex_first_witness :
  pom.process_POM (Samples.run_with Samples.out_both Samples.three_dirs) "pom.xml" None =
    Return ("/opt/conf", ["dev"; "test"; "prod"], ["apex-export"; "apex-import"],
            "proxyacct", EmptyString).
Proof.
  destruct (process_POM_apex_first _ _ _ _ _
              (Steps.scanned_run_with Samples.out_both Samples.three_dirs
                 "pom.xml" None)) as (_ & _ & H).
  - apply Steps.issuperset_true. vm_compute. reflexivity.
  - rewrite H.
    + vm_compute. reflexivity.
    + vm_compute. discriminate.
    + vm_compute. discriminate.
    + vm_compute. intros [[=] _].
Defined.

Lemma process_POM_database_bundle_witness :
  pom.process_POM (Samples.run_with Samples.out_db Samples.three_dirs) "pom.xml" None =
    Return ("/opt/conf", ["dev"; "test"; "prod"],
            ["db-info"; "db-install"; "db-code-check"; "db-test";
             "db-generate-ddl-full"; "db-generate-ddl-incr"],
            "proxyacct", EmptyString).
Proof.
  destruct (process_POM_database_bundle _ _ _ _ _
              (Steps.scanned_run_with Samples.out_db Samples.three_dirs
                 "pom.xml" None)) as (_ & _ & H & _).
  - apply Steps.issuperset_true. vm_compute. reflexivity.
  - apply Steps.issuperset_false. vm_compute. reflexivity.
  - rewrite H.
    + vm_compute. reflexivity.
    + vm_compute. discriminate.
    + vm_compute. discriminate.
    + vm_compute. intros [[=] _].
Defined.

Lemma process_POM_no_targets_KeyError_witness :
  pom.process_POM (Samples.run_with Samples.out_no_dir None) "pom.xml" (Some "/opt/conf")
  = Raise (KeyError "db.config.dir").
Proof.
  apply (process_POM_no_targets_KeyError _ _ _ _ _
           (Steps.scanned_run_with _ _ _ _)) with (d := "/opt/conf").
  - left. apply Steps.issuperset_true. vm_compute. reflexivity.
  - reflexivity.
  - discriminate.
  - vm_compute. reflexivity.
  - reflexivity.
Defined.

(** * The properties of the scanner *)

Section scanner.
Import pom Lines Samples.

(** What [process_line] takes as a property echo has a value that is not
    empty. *)
Lemma echo_of_value_nonempty line k v :
  echo_of line = Some (k, v) → v ≠ EmptyString.
Proof.
  unfold echo_of. destruct (Re.search _ _); [done|].
  destruct (Re.match_ _ _) as [m|] eqn:Hm; [|done].
  apply Patterns.match_property_Some in Hm
    as (k' & v' & r & _ & _ & _ & Hv & _ & _ & ->).
  by intros [= _ <-].
Qed.

(** A well-formed echo whose value holds no colon is taken as such. *)
Lemma echo_of_echo k v :
  k ≠ EmptyString → ReProg.is_ident k = true →
  v ≠ EmptyString → ReProg.one_line v = true → Str.mem ":" v = false →
  echo_of (echo k v) = Some (k, v).
Proof.
  intros Hk Hik Hv Hlv Hcolon. unfold echo_of, echo.
  rewrite Patterns.search_profile_no_colon.
  - by rewrite Patterns.match_property_line.
  - rewrite !StrFacts.mem_app, Hcolon, !orb_false_r.
    change (Str.mem ":" "[echoproperties] ") with false.
    change (Str.mem ":" "=") with false. rewrite orb_false_l.
    clear Hk. induction k as [|c k IH]; [done|].
    unfold ReProg.is_ident in *. simpl in Hik.
    apply andb_true_iff in Hik as [Hc Hik]. simpl.
    destruct (decide (":"%char = c)) as [<-|]; [done|]. by apply IH.
Qed.

(** C5: the scanner works on the lines that a newline ends and on nothing
    else: text without a newline at the end of the output changes nothing,
    and the settings are those of the lines before it, taken in order. *)
Theorem parse_ignores_partial_line stdout tail :
  Str.mem Str.LF tail = false →
  parse (stdout +:+ tail) = parse stdout
  ∧ (∀ ls, Forall (λ l, ReProg.one_line l = true) ls →
           parse (unlines ls +:+ tail) = process_lines (∅, ∅) ls).
Proof.
  intros Htail.
  assert (ReProg.one_line tail = true) as Hone
    by by rewrite Patterns.one_line_mem, Htail.
  split.
  - unfold parse. rewrite Scanner.scan_app. by apply Scanner.scan_one_line.
  - intros ls Hls. by rewrite Scanner.parse_lines, Scanner.lines_unlines.
Qed.

(** C9: no value of the property mapping is the empty string; a line that
    echoes a key with nothing after the equals sign matches neither
    pattern and leaves the settings as they are. *)
Theorem parse_values_nonempty :
  (∀ stdout key v, (parse stdout).1 !! key = Some v → v ≠ EmptyString)
  ∧ (∀ key st, ReProg.is_ident key = true →
       let line := "[echoproperties] " +:+ key +:+ "=" in
       Re.search profile_pattern line = None
       ∧ Re.match_ property_pattern line = None
       ∧ process_line line st = st).
Proof.
  split.
  - intros stdout. unfold parse.
    apply (Scanner.scan_invariant
             (λ st, ∀ key v, st.1 !! key = Some v → v ≠ EmptyString)).
    + intros line st Hst key v. rewrite Scanner.process_line_eq. cbn [fst].
      destruct (echo_of line) as [[k' v']|] eqn:Hecho; [|apply Hst].
      destruct (decide (k' = key)) as [->|Hne].
      * rewrite lookup_insert_eq. intros [= <-].
        by eapply echo_of_value_nonempty.
      * rewrite lookup_insert_ne by done. apply Hst.
    + intros key v. cbn [fst]. by rewrite lookup_empty.
  - intros key st Hik line.
    assert (Re.search profile_pattern line = None) as Hsearch.
    { apply Patterns.search_profile_no_colon. unfold line.
      rewrite !StrFacts.mem_app.
      change (Str.mem ":" "[echoproperties] ") with false.
      change (Str.mem ":" "=") with false. rewrite orb_false_l, orb_false_r.
      clear line. induction key as [|c k IH]; [done|].
      unfold ReProg.is_ident in *. simpl in Hik.
      apply andb_true_iff in Hik as [Hc Hik]. simpl.
      destruct (decide (":"%char = c)) as [<-|]; [done|]. by apply IH. }
    assert (Re.match_ property_pattern line = None) as Hmatch
      by by apply Patterns.match_property_empty_value.
    split_and!; [done..|].
    destruct st as [properties profiles]. unfold process_line.
    by rewrite Hsearch, Hmatch.
Qed.

(** C10: the scanner of [src/oracle-tools-gui.py] and the one of
    [src/utils/pom.py] give the same settings for every output: their
    patterns are the same strings, written as ordinary and as raw
    literals, and so are their loops; without a directory from the caller
    the two [determine_POM_settings] agree as a whole. *)
Theorem scanners_agree :
  oracle_tools_gui.profile_literal = profile_literal
  ∧ oracle_tools_gui.property_literal = property_literal
  ∧ (∀ stdout, oracle_tools_gui.parse stdout = parse stdout)
  ∧ (∀ w pom_file,
       oracle_tools_gui.determine_POM_settings w pom_file
       = determine_POM_settings w pom_file None).
Proof.
  assert (∀ line st, oracle_tools_gui.process_line line st = process_line line st)
    as Hline by done.
  assert (∀ out line st,
            oracle_tools_gui.scan out line st = scan out line st) as Hscan.
  { intros out. induction out as [|ch rest IH]; intros line st; [done|].
    simpl. case_bool_decide; [apply IH|]. by rewrite Hline, IH. }
  split_and!; [done..| |].
  - intros stdout. apply Hscan.
  - intros w pom_file. unfold oracle_tools_gui.determine_POM_settings,
      determine_POM_settings, oracle_tools_gui.parse, parse.
    change (command pom_file None) with (oracle_tools_gui.command pom_file).
    by rewrite Hscan.
Qed.

End scanner.

(** * The directory and the account *)

Section directory_and_account.
Import pom Outcome.

Variables (w : world) (pom_file : string) (override : option string).
Variables (properties : gmap string string) (profiles : gset string).

Hypothesis scanned :
  determine_POM_settings w pom_file override = Return (properties, profiles).

Let dir := resolved_dir override properties.
Let proxy := default EmptyString (properties !! "db.proxy.username").
Let user := default EmptyString (properties !! "db.username").
Let classified :=
  list_to_set apex_profiles ⊆ profiles ∨ list_to_set db_profiles ⊆ profiles.

Lemma process_POM_Return t :
  process_POM w pom_file override = Return t ↔
  classified ∧ dir ≠ EmptyString ∧ targets w dir ≠ []
  ∧ ¬ (proxy = EmptyString ∧ user = EmptyString)
  ∧ dir_of t = dir ∧ targets_of t = targets w dir
  ∧ credentials_of t = (proxy, user)
  ∧ bundle_of t = (if issuperset profiles apex_profiles
                   then apex_profiles else db_profiles).
Proof.
  rewrite (Steps.process_POM_classified _ _ _ _ _ scanned). unfold classified.
  destruct t as [[[[d dbs] b] pu] u].
  unfold dir_of, targets_of, credentials_of, bundle_of. cbn [fst snd].
  destruct (issuperset profiles apex_profiles) eqn:Ha.
  { rewrite Steps.finish_Return. apply Steps.issuperset_true in Ha.
    fold dir proxy user. naive_solver. }
  destruct (issuperset profiles db_profiles) eqn:Hb.
  { rewrite Steps.finish_Return. apply Steps.issuperset_true in Hb.
    fold dir proxy user. naive_solver. }
  apply Steps.issuperset_false in Ha, Hb. naive_solver.
Qed.


(** C7: both user names are read with the empty string for an absent key;
    the assertion on the account is what [process_POM] raises exactly when
    the earlier steps pass and both names are empty; a returned tuple
    carries the two names, and with [db.username] bound to [alice] and no
    proxy user name the tuple is returned with the pair of the empty
    string and [alice]. *)
Theorem process_POM_account :
  (∀ a b, process_POM w pom_file override = Raise (AssertionError (AccountNotSet a b)) ↔
          classified ∧ dir ≠ EmptyString ∧ targets w dir ≠ []
          ∧ proxy = EmptyString ∧ user = EmptyString
          ∧ a = EmptyString ∧ b = EmptyString)
  ∧ (∀ t, process_POM w pom_file override = Return t →
          credentials_of t = (get properties "db.proxy.username" EmptyString,
                              get properties "db.username" EmptyString)
          ∧ credentials_of t ≠ (EmptyString, EmptyString))
  ∧ (classified → dir ≠ EmptyString → targets w dir ≠ [] →
     properties !! "db.proxy.username" = None →
     properties !! "db.username" = Some "alice" →
     ∃ t, process_POM w pom_file override = Return t
          ∧ credentials_of t = (EmptyString, "alice")).
Proof.
  split_and!.
  - intros a b. rewrite (Steps.process_POM_classified _ _ _ _ _ scanned).
    unfold classified.
    unfold dir, proxy, user.
    destruct (issuperset profiles apex_profiles) eqn:Ha.
    { rewrite Steps.finish_AccountNotSet. apply Steps.issuperset_true in Ha.
      naive_solver. }
    destruct (issuperset profiles db_profiles) eqn:Hb.
    { rewrite Steps.finish_AccountNotSet. apply Steps.issuperset_true in Hb.
      naive_solver. }
    apply Steps.issuperset_false in Ha, Hb. naive_solver.
  - intros t Ht. apply process_POM_Return in Ht as (_ & _ & _ & Hacc & _ & _ & Ht & _).
    rewrite Ht. split; [done|]. intros [= ? ?]. by apply Hacc.
  - intros Hcl Hdir Hdbs Hproxy Huser.
    exists (dir, targets w dir,
            (if issuperset profiles apex_profiles then apex_profiles
             else db_profiles), proxy, user).
    split.
    + apply process_POM_Return. split_and!; try done.
      unfold user. rewrite Huser. by intros [_ [=]].
    + unfold credentials_of, proxy, user. cbn [fst snd]. by rewrite Hproxy, Huser.
Qed.

End directory_and_account.

(** * The statements at sample runs *)

Lemma parse_final_newline_counterexample :
  let stdout := "Profile Id: x (Active: false , Source: pom)" in
  pom.parse (stdout +:+ String Str.LF EmptyString) ≠ pom.parse stdout.
Proof.
  intros stdout Heq.
  assert ("x" ∈ (pom.parse (stdout +:+ String Str.LF EmptyString)).2) as Hin.
  { apply (bool_decide_unpack _). vm_compute. exact I. }
  rewrite Heq in Hin. apply (bool_decide_pack _) in Hin.
  vm_compute in Hin. exact Hin.
Qed.

Lemma parse_ignores_partial_line_witness :
  pom.parse (Samples.out_db +:+ Samples.announce "apex-export")
  = pom.parse Samples.out_db.
Proof.
  refine (proj1 (parse_ignores_partial_line Samples.out_db
                   (Samples.announce "apex-export") _)).
  vm_compute. reflexivity.
Defined.


Lemma process_POM_account_witness :
  ∃ t, pom.process_POM (Samples.run_with Samples.out_alice Samples.three_dirs)
         "pom.xml" None = Return t
       ∧ Outcome.credentials_of t = (EmptyString, "alice").
Proof.
  destruct (process_POM_account _ _ _ _ _
              (Steps.scanned_run_with Samples.out_alice Samples.three_dirs
                 "pom.xml" None)) as (_ & _ & H).
  apply H.
  - left. apply Steps.issuperset_true. vm_compute. reflexivity.
  - vm_compute. discriminate.
  - vm_compute. discriminate.
  - vm_compute. reflexivity.
  - vm_compute. reflexivity.
Defined.

Lemma parse_values_nonempty_witness :
  pom.process_line "[echoproperties] db.proxy.username=" (∅, ∅) = (∅, ∅)
  ∧ "alice" ≠ EmptyString.
Proof.
  destruct parse_values_nonempty as [Hvalues Hline]. split.
  - apply (Hline "db.proxy.username" (∅, ∅)). vm_compute. reflexivity.
  - apply (Hvalues Samples.out_alice "db.username"). vm_compute. reflexivity.
Defined.

(** [str.replace] on overlapping occurrences and on the escapes of a path. *)
Example replace_no_overlap : Str.replace "aa" "b" "aaa" = "ba".
Proof. reflexivity. Qed.

Example replace_backslash_colon : Str.replace "\:" ":" "C\:\\tmp" = "C:\\tmp".
Proof. reflexivity. Qed.

(** The scenario of a database project: six profiles, a directory with three
    subdirectories and a proxy account. *)
Example process_POM_database_scenario :
  pom.process_POM (Samples.run_with Samples.out_db Samples.three_dirs) "pom.xml" None
  = Return ("/opt/conf", ["dev"; "test"; "prod"],
            ["db-info"; "db-install"; "db-code-check"; "db-test";
             "db-generate-ddl-full"; "db-generate-ddl-incr"],
            "proxyacct", EmptyString).
Proof. vm_compute. reflexivity. Qed.

(** * The matcher at sample lines *)

(** The leftmost announcement gives the profile id, whatever follows it. *)
Example search_profile_with_tail :
  Re.search pom.profile_pattern
    "xx Profile Id: db-install (Active: false , Source: pom) , Source: pom)"
  = Some ["db-install"].
Proof. vm_compute. reflexivity. Qed.

(** A line that both echoes a property and holds an announcement is taken
    as an announcement: the profile pattern is tried first. *)
Example announcement_inside_echo :
  Lines.profile_of "[echoproperties] k=Profile Id: x (Active: a, Source: pom)"
  = Some "x"
  ∧ Lines.echo_of "[echoproperties] k=Profile Id: x (Active: a, Source: pom)"
    = None.
Proof. split; vm_compute; reflexivity. Qed.

(** The value of an echo runs to the end of the line, equals signs
    included; the echo has to start the line. *)
Example match_property_value_with_equals :
  Re.match_ pom.property_pattern "[echoproperties] db.config.dir=a=b c"
  = Some ["db.config.dir"; "a=b c"]
  ∧ Re.match_ pom.property_pattern " [echoproperties] db.config.dir=x" = None.
Proof. split; vm_compute; reflexivity. Qed.

(** An ordinary literal keeps a backslash that starts no escape sequence,
    and turns two backslashes into one. *)
Example literal_escapes :
  PyLiteral.literal false "\(a\\b\)" = Some "\(a\b\)"
  ∧ PyLiteral.literal true "\(a\\b\)" = Some "\(a\\b\)".
Proof. split; reflexivity. Qed.

(** * More properties of [src/utils/pom.py] *)

(** ** Helpers *)

Module MoreFacts.
Import pom Lines Outcome Invariant.

Lemma accumulate_app error s : accumulate error s = error +:+ s.
Proof.
  revert error. induction s as [|ch s IH]; intros error.
  - by rewrite StrFacts.app_nil_r.
  - simpl. by rewrite IH, StrFacts.app_assoc.
Qed.

Lemma replace_nonempty old new s :
  new ≠ EmptyString → s ≠ EmptyString → Str.replace old new s ≠ EmptyString.
Proof.
  intros Hnew Hs. destruct s as [|c s]; [done|]. destruct new as [|n new]; [done|].
  unfold Str.replace. simpl. destruct (Str.startswith old (String c s)); [|done].
  by rewrite StrFacts.app_cons.
Qed.

(** A text in which the first character of [old] does not occur is left
    as it is. *)
Lemma replace_absent o old new s :
  Str.mem o s = false → Str.replace (String o old) new s = s.
Proof.
  unfold Str.replace. induction s as [|c s IH]; [done|]. simpl.
  destruct (decide (o = c)) as [->|Hne]; [done|]. intros Hmem.
  by rewrite IH.
Qed.

Lemma normalize_nonempty v : v ≠ EmptyString → normalize v ≠ EmptyString.
Proof.
  intros Hv. unfold normalize.
  apply replace_nonempty; [done|]. by apply replace_nonempty.
Qed.

Lemma normalize_no_backslash v : Str.mem "\" v = false → normalize v = v.
Proof.
  intros Hv. unfold normalize.
  change "\:" with (String "\" ":"). change "\\" with (String "\" "\").
  by rewrite (replace_absent _ _ _ v Hv), (replace_absent _ _ _ v Hv).
Qed.

(** What a line adds is well-formed: keys and profile ids are identifiers
    that are not empty, values are not empty and hold no newline. *)
Lemma echo_of_wf line k v :
  echo_of line = Some (k, v) →
  k ≠ EmptyString ∧ ReProg.is_ident k = true
  ∧ v ≠ EmptyString ∧ ReProg.one_line v = true.
Proof.
  unfold echo_of. destruct (Re.search _ _); [done|].
  destruct (Re.match_ _ _) as [m|] eqn:Hm; [|done].
  apply Patterns.match_property_Some in Hm
    as (k' & v' & r & _ & ? & ? & ? & ? & _ & ->).
  by intros [= <- <-].
Qed.

Lemma profile_of_wf line p :
  profile_of line = Some p →
  p ≠ EmptyString ∧ ReProg.is_ident p = true
  ∧ ∃ pre mid rest,
      line = pre +:+ "Profile Id: " +:+ p +:+ " (Active: " +:+ mid
                 +:+ ", Source: pom)" +:+ rest.
Proof.
  unfold profile_of. destruct (Re.search _ _) as [m|] eqn:Hm; [|done].
  apply Patterns.search_profile_Some in Hm
    as (pre & k & mid & rest & -> & ? & ? & _ & ->).
  intros [= <-]. split_and!; [done..|]. by exists pre, mid, rest.
Qed.

Lemma process_line_wf line st : wf st → wf (process_line line st).
Proof.
  intros [Hprops Hprofs]. rewrite Scanner.process_line_eq. split; cbn [fst snd].
  - intros k v. destruct (echo_of line) as [[k' v']|] eqn:Hecho; [|apply Hprops].
    destruct (decide (k' = k)) as [->|Hne].
    + rewrite lookup_insert_eq. intros [= <-]. by eapply echo_of_wf.
    + rewrite lookup_insert_ne by done. apply Hprops.
  - intros p. destruct (profile_of line) as [p'|] eqn:Hp; [|apply Hprofs].
    rewrite elem_of_union, elem_of_singleton. intros [->|Hin]; [|by apply Hprofs].
    by apply profile_of_wf in Hp as (? & ? & _).
Qed.

Lemma parse_wf stdout : wf (parse stdout).
Proof.
  unfold parse. apply (Scanner.scan_invariant wf).
  - intros line st. apply process_line_wf.
  - split; [intros k v | intros p]; cbn [fst snd].
    + by rewrite lookup_empty.
    + by rewrite elem_of_empty.
Qed.

Lemma determine_POM_settings_Raise w pom_file override e :
  determine_POM_settings w pom_file override = Raise e →
  ∃ rc error, rc ≠ 0 ∧ e = Exception (CommandFailed (command pom_file override) rc error).
Proof.
  unfold determine_POM_settings. case_bool_decide as Hrc; [done|].
  intros [= <-]. eauto.
Qed.

Lemma finish_ConfigDirNotSet w override properties bundle :
  finish w override properties bundle = Raise (AssertionError ConfigDirNotSet) ↔
  resolved_dir override properties = EmptyString.
Proof.
  unfold finish. generalize (resolved_dir override properties). intros dir.
  case_bool_decide as Hdir; [done|].
  destruct (targets w dir).
  { destruct (properties !! "db.config.dir"); naive_solver. }
  destruct (_ && _); naive_solver.
Qed.

End MoreFacts.

(** ** The failure of Maven *)

(** X1: when Maven ends with a status that is not 0, [determine_POM_settings]
    and with it [process_POM] raise the exception that carries the command,
    the status and the whole of the standard error; neither the standard
    output nor the directory is looked at. *)
Theorem process_POM_mvn_failure w pom_file override :
  returncode (popen w (pom.command pom_file override)) ≠ 0 →
  let mvn := popen w (pom.command pom_file override) in
  let failure :=
    Exception (CommandFailed (pom.command pom_file override) (returncode mvn)
                 (stderr mvn)) in
  pom.determine_POM_settings w pom_file override = Raise failure
  ∧ pom.process_POM w pom_file override = Raise failure
  ∧ ∀ out entries,
      pom.process_POM (World (λ cmd, Completed (returncode (popen w cmd)) out
                                       (stderr (popen w cmd)))
                             (λ _, entries)) pom_file override
      = Raise failure.
Proof.
  intros Hrc mvn failure.
  assert (∀ w', returncode (popen w' (pom.command pom_file override)) = returncode mvn →
                stderr (popen w' (pom.command pom_file override)) = stderr mvn →
                pom.determine_POM_settings w' pom_file override = Raise failure) as Hdet.
  { intros w' Hrc' Herr. unfold pom.determine_POM_settings.
    rewrite Hrc', bool_decide_false by done.
    by rewrite MoreFacts.accumulate_app, Herr. }
  split_and!.
  - by apply Hdet.
  - unfold pom.process_POM. by rewrite Hdet.
  - intros out entries. unfold pom.process_POM. by rewrite Hdet.
Qed.

Lemma process_POM_mvn_failure_witness :
  pom.process_POM
    (World (λ _, Completed 1 Samples.out_db "[ERROR] no POM in this directory")
           (λ _, Samples.three_dirs)) "pom.xml" None
  = Raise (Exception (CommandFailed
             "mvn --file pom.xml -N help:all-profiles -Pconf-inquiry compile" 1
             "[ERROR] no POM in this directory")).
Proof.
  refine (proj1 (proj2 (process_POM_mvn_failure
            (World (λ _, Completed 1 Samples.out_db "[ERROR] no POM in this directory")
                   (λ _, Samples.three_dirs)) "pom.xml" None _))).
  discriminate.
Defined.

(** ** After a scan *)

Section after_scan.
Import pom Outcome.

Variables (w : world) (pom_file : string) (override : option string).
Variables (properties : gmap string string) (profiles : gset string).

Hypothesis scanned :
  determine_POM_settings w pom_file override = Return (properties, profiles).

Let classified :=
  list_to_set apex_profiles ⊆ profiles ∨ list_to_set db_profiles ⊆ profiles.

Lemma scanned_wf : Invariant.wf (properties, profiles).
Proof.
  apply Steps.determine_POM_settings_Return in scanned as [_ ->].
  apply MoreFacts.parse_wf.
Qed.

(** X2: the assertion that [db.config.dir] must have been set is what
    [process_POM] raises exactly when a bundle was chosen, the caller gave
    no directory (or an empty one) and no line echoed [db.config.dir]. *)
Theorem process_POM_config_dir_not_set :
  process_POM w pom_file override = Raise (AssertionError ConfigDirNotSet) ↔
  classified ∧ truthy_opt override = false
  ∧ properties !! "db.config.dir" = None.
Proof.
  rewrite (Steps.process_POM_classified _ _ _ _ _ scanned). unfold classified.
  assert (resolved_dir override properties = EmptyString ↔
          truthy_opt override = false ∧ properties !! "db.config.dir" = None)
    as Hdir.
  { assert (normalize (default EmptyString (properties !! "db.config.dir"))
            = EmptyString ↔ properties !! "db.config.dir" = None) as Hnorm.
    { destruct (properties !! "db.config.dir") as [v|] eqn:Hv; [|done].
      split; [|done]. intros Hempty.
      destruct scanned_wf as [Hprops _]. apply Hprops in Hv as (_ & _ & Hv & _).
      by apply MoreFacts.normalize_nonempty in Hv. }
    unfold resolved_dir, truthy_opt, truthy. destruct override as [d|]; [|naive_solver].
    case_bool_decide; simpl; naive_solver. }
  destruct (issuperset profiles apex_profiles) eqn:Ha.
  { rewrite MoreFacts.finish_ConfigDirNotSet, Hdir.
    apply Steps.issuperset_true in Ha. naive_solver. }
  destruct (issuperset profiles db_profiles) eqn:Hb.
  { rewrite MoreFacts.finish_ConfigDirNotSet, Hdir.
    apply Steps.issuperset_true in Hb. naive_solver. }
  apply Steps.issuperset_false in Ha, Hb. naive_solver.
Qed.

(** X3: the targets of a returned tuple are not empty, and they are the
    names of the entries of the returned directory that are directories, in
    the order of the listing; a plain file is never among them. *)
Theorem process_POM_targets t :
  process_POM w pom_file override = Return t →
  targets_of t ≠ []
  ∧ ∃ entries,
      iterdir w (dir_of t) = Some entries
      ∧ targets_of t = name <$> filter (λ d, is_dir d = true) entries
      ∧ ∀ db, db ∈ targets_of t ↔ DirEntry db true ∈ entries.
Proof.
  intros Ht.
  apply (process_POM_Return _ _ _ _ _ scanned) in Ht
    as (_ & _ & Hdbs & _ & Hdir & Htargets & _).
  rewrite Htargets, Hdir. split; [done|]. unfold targets in *.
  destruct (iterdir w _) as [entries|]; [|done].
  exists entries. split_and!; [done..|].
  intros db. rewrite list_elem_of_fmap. setoid_rewrite list_elem_of_filter. split.
  - intros ([n d] & -> & Hd & Hin). simpl in Hd. by subst d.
  - intros Hin. by exists (DirEntry db true).
Qed.

(** X9: when the caller gave no directory and the echoed [db.config.dir]
    holds no backslash, the directory of a returned tuple is the echoed
    value as it is, and the tuple is returned as soon as a bundle is chosen,
    the directory has a subdirectory and an account is set. *)
Theorem process_POM_plain_dir v :
  truthy_opt override = false →
  properties !! "db.config.dir" = Some v →
  Str.mem "\" v = false →
  (∀ t, process_POM w pom_file override = Return t → dir_of t = v)
  ∧ (classified → targets w v ≠ [] →
     ¬ (get properties "db.proxy.username" EmptyString = EmptyString
        ∧ get properties "db.username" EmptyString = EmptyString) →
     ∃ t, process_POM w pom_file override = Return t ∧ dir_of t = v).
Proof.
  intros Ho Hv Hmem.
  assert (resolved_dir override properties = v) as Hdir.
  { unfold resolved_dir. rewrite Hv. cbn [default].
    rewrite MoreFacts.normalize_no_backslash by done.
    destruct override as [d|]; [|done]. unfold truthy_opt, truthy in Ho.
    by case_bool_decide. }
  assert (v ≠ EmptyString) as Hne.
  { destruct scanned_wf as [Hprops _]. by apply Hprops in Hv as (_ & _ & ? & _). }
  split.
  - intros t Ht. apply (process_POM_Return _ _ _ _ _ scanned) in Ht
      as (_ & _ & _ & _ & Ht & _). by rewrite Ht.
  - intros Hcl Hdbs Hacc.
    exists (v, targets w v,
            (if issuperset profiles apex_profiles then apex_profiles
             else db_profiles),
            get properties "db.proxy.username" EmptyString,
            get properties "db.username" EmptyString).
    split; [|done]. apply (process_POM_Return _ _ _ _ _ scanned).
    rewrite Hdir. by split_and!.
Qed.

End after_scan.

Lemma process_POM_config_dir_not_set_witness :
  pom.process_POM (Samples.run_with Samples.out_no_dir Samples.three_dirs)
    "pom.xml" None
  = Raise (AssertionError ConfigDirNotSet).
Proof.
  apply (process_POM_config_dir_not_set _ _ _ _ _
           (Steps.scanned_run_with Samples.out_no_dir Samples.three_dirs
              "pom.xml" None)).
  split_and!.
  - left. apply Steps.issuperset_true. vm_compute. reflexivity.
  - reflexivity.
  - vm_compute. reflexivity.
Defined.

Lemma process_POM_targets_witness :
  "dev" ∈ ["dev"; "test"; "prod"] ↔
  DirEntry "dev" true ∈ [DirEntry "dev" true; DirEntry "README" false;
                         DirEntry "test" true; DirEntry "prod" true].
Proof.
  destruct (process_POM_targets _ _ _ _ _
              (Steps.scanned_run_with Samples.out_db Samples.three_dirs
                 "pom.xml" None)
              ("/opt/conf", ["dev"; "test"; "prod"],
               ["db-info"; "db-install"; "db-code-check"; "db-test";
                "db-generate-ddl-full"; "db-generate-ddl-incr"],
               "proxyacct", EmptyString))
    as (_ & entries & Hentries & _ & Hiff).
  - vm_compute. reflexivity.
  - injection Hentries as <-. exact (Hiff "dev").
Defined.

Lemma process_POM_plain_dir_witness :
  ∃ t, pom.process_POM (Samples.run_with Samples.out_db Samples.three_dirs)
         "pom.xml" None = Return t
       ∧ Outcome.dir_of t = "/opt/conf".
Proof.
  destruct (process_POM_plain_dir _ _ _ _ _
              (Steps.scanned_run_with Samples.out_db Samples.three_dirs
                 "pom.xml" None) "/opt/conf") as [_ H].
  - reflexivity.
  - vm_compute. reflexivity.
  - vm_compute. reflexivity.
  - apply H.
    + right. apply Steps.issuperset_true. vm_compute. reflexivity.
    + vm_compute. discriminate.
    + vm_compute. intros [[=] _].
Defined.

(** * More properties of the scanner *)

Module ScanMore.
Import pom Lines.

Lemma contains_unfold p s :
  PyStr.contains p s =
  if Str.startswith p s then true
  else match s with
       | EmptyString => false
       | String _ s' => PyStr.contains p s'
       end.
Proof. by destruct s. Qed.

Lemma contains_here p s : PyStr.contains p (p +:+ s) = true.
Proof. by rewrite contains_unfold, StrFacts.startswith_app. Qed.

Lemma contains_app p pre s : PyStr.contains p (pre +:+ p +:+ s) = true.
Proof.
  induction pre as [|c pre IH].
  { rewrite StrFacts.app_nil_l. apply contains_here. }
  rewrite StrFacts.app_cons, contains_unfold, IH. by destruct (Str.startswith _ _).
Qed.

Lemma contains_inv p s :
  PyStr.contains p s = true → ∃ pre r, s = pre +:+ p +:+ r.
Proof.
  induction s as [|c s IH]; simpl.
  - destruct (Str.startswith p EmptyString) eqn:Hp; [|done]. intros _.
    apply StrFacts.startswith_inv in Hp as [r ->]. by exists EmptyString, r.
  - destruct (Str.startswith p (String c s)) eqn:Hp.
    + intros _. apply StrFacts.startswith_inv in Hp as [r ->]. by exists EmptyString, r.
    + intros H. destruct (IH H) as (pre & r & ->). by exists (String c pre), r.
Qed.

(** A text that starts with [p] and has a character foreign to [p] after
    [a] starts with [p] inside [a]. *)
Lemma prefix_before_foreign p r a c v :
  Str.mem c p = false → p +:+ r = a +:+ String c v → ∃ r', a = p +:+ r'.
Proof.
  revert a. induction p as [|x p IH]; intros a Hc H; [by exists a|].
  simpl in Hc. destruct (decide (c = x)) as [|Hne]; [done|].
  destruct a as [|y a]; rewrite ?StrFacts.app_cons, ?StrFacts.app_nil_l in H.
  - by injection H as <- _.
  - injection H as <- H. destruct (IH a Hc H) as [r' ->]. by exists r'.
Qed.

(** An occurrence of [p] in [a], a character foreign to [p], then [v] lies
    in [a] or in [v]. *)
Lemma occurrence_split p a c v pre r :
  Str.mem c p = false → p ≠ EmptyString →
  a +:+ String c v = pre +:+ p +:+ r →
  (∃ r', a = pre +:+ p +:+ r') ∨ (∃ pre', v = pre' +:+ p +:+ r).
Proof.
  intros Hc Hp. revert pre. induction a as [|y a IH]; intros pre H.
  - rewrite StrFacts.app_nil_l in H. destruct pre as [|z pre].
    + rewrite StrFacts.app_nil_l in H. destruct p as [|x p]; [done|].
      rewrite StrFacts.app_cons in H. injection H as -> _.
      simpl in Hc. by rewrite decide_True in Hc.
    + rewrite StrFacts.app_cons in H. injection H as _ ->. right. by exists pre.
  - rewrite StrFacts.app_cons in H. destruct pre as [|z pre].
    + rewrite StrFacts.app_nil_l in H. left.
      rewrite <- StrFacts.app_cons in H. symmetry in H.
      by apply prefix_before_foreign in H as [r' ->]; [exists r'|].
    + rewrite StrFacts.app_cons in H. injection H as -> H.
      destruct (IH pre H) as [[r' ->] | [pre' ->]]; [left; by exists r' | right; by exists pre'].
Qed.

Lemma is_ident_mem c k :
  Re.accepts ReProg.ident c = false → ReProg.is_ident k = true → Str.mem c k = false.
Proof.
  intros Hc. unfold ReProg.is_ident. induction k as [|x k IH]; [done|].
  cbn [ReProg.all_accept Str.mem].
  intros [Hx Hk]%andb_true_iff. destruct (decide (c = x)) as [->|]; [|auto].
  by rewrite Hc in Hx.
Qed.

Lemma is_ident_one_line k : ReProg.is_ident k = true → ReProg.one_line k = true.
Proof.
  intros Hk. rewrite Patterns.one_line_mem. by rewrite is_ident_mem.
Qed.

Lemma one_line_echo k v :
  ReProg.is_ident k = true → ReProg.one_line v = true →
  ReProg.one_line (Samples.echo k v) = true.
Proof.
  intros Hk Hv. unfold Samples.echo, ReProg.one_line.
  rewrite !ReFacts.all_accept_app.
  apply is_ident_one_line in Hk. unfold ReProg.one_line in Hk, Hv.
  by rewrite Hk, Hv.
Qed.

Lemma one_line_announce p :
  ReProg.is_ident p = true → ReProg.one_line (Samples.announce p) = true.
Proof.
  intros Hp. unfold Samples.announce, ReProg.one_line.
  rewrite !ReFacts.all_accept_app.
  apply is_ident_one_line in Hp. unfold ReProg.one_line in Hp.
  by rewrite Hp.
Qed.

(** No announcement is found in an echo whose value does not hold the
    words that start one. *)
Lemma search_profile_echo k v :
  ReProg.is_ident k = true → PyStr.contains "Profile Id: " v = false →
  Re.search profile_pattern (Samples.echo k v) = None.
Proof.
  intros Hk Hv. destruct (Re.search _ _) as [m|] eqn:Hs; [|done].
  apply Patterns.search_profile_Some in Hs as (pre & p & mid & rest & Heq & _).
  unfold Samples.echo in Heq.
  rewrite <- (StrFacts.app_assoc "[echoproperties] " k) in Heq.
  change ("=" +:+ v) with (String "=" v) in Heq.
  apply occurrence_split in Heq as [[r' Heq] | [pre' Heq]]; [| |done..].
  - assert (Str.mem ":" ("[echoproperties] " +:+ k) = false) as Hmem.
    { rewrite StrFacts.mem_app. by rewrite (is_ident_mem ":" k). }
    rewrite Heq, !StrFacts.mem_app in Hmem. simpl in Hmem.
    by rewrite orb_true_r in Hmem.
  - by rewrite Heq, contains_app in Hv.
Qed.

Lemma echo_of_echo_line k v :
  k ≠ EmptyString → ReProg.is_ident k = true →
  v ≠ EmptyString → ReProg.one_line v = true →
  PyStr.contains "Profile Id: " v = false →
  echo_of (Samples.echo k v) = Some (k, v) ∧ profile_of (Samples.echo k v) = None.
Proof.
  intros Hk Hik Hv Hlv Hc. unfold echo_of, profile_of.
  rewrite search_profile_echo by done. split; [|done].
  unfold Samples.echo. by rewrite Patterns.match_property_line.
Qed.

Lemma profile_of_announce p :
  p ≠ EmptyString → ReProg.is_ident p = true →
  profile_of (Samples.announce p) = Some p ∧ echo_of (Samples.announce p) = None.
Proof.
  intros Hp Hip. unfold echo_of, profile_of.
  change (Samples.announce p)
    with ("Profile Id: " +:+ p +:+ " (Active: " +:+ "false " +:+ ", Source: pom)").
  by rewrite Patterns.search_profile_line.
Qed.

(** The settings after some lines are those the lines give on their own,
    laid over the settings before. *)
Lemma process_lines_union st ls :
  process_lines st ls =
  ((process_lines (∅, ∅) ls).1 ∪ st.1, st.2 ∪ (process_lines (∅, ∅) ls).2).
Proof.
  revert st. induction ls as [|l ls IH]; intros [m ps].
  - cbn. by rewrite (left_id_L ∅ (∪)), (right_id_L ∅ (∪)).
  - rewrite !Scanner.process_lines_cons, (IH (process_line l (m, ps))),
      (IH (process_line l (∅, ∅))).
    rewrite !Scanner.process_line_eq. cbn [fst snd].
    generalize (process_lines (∅, ∅) ls). intros [m' ps']. cbn [fst snd].
    f_equal.
    + destruct (echo_of l) as [[k v]|].
      * rewrite <- (assoc_L (∪)). f_equal.
        by rewrite insert_union_singleton_l, insert_empty.
      * by rewrite (right_id_L ∅ (∪)).
    + destruct (profile_of l) as [p|]; set_solver.
Qed.

Lemma residual_newline s line :
  residual line (s +:+ String Str.LF EmptyString) = EmptyString.
Proof.
  revert line. induction s as [|c s IH]; intros line; [done|].
  rewrite StrFacts.app_cons. simpl. case_bool_decide; apply IH.
Qed.

Lemma unlines_app ls1 ls2 : unlines (ls1 ++ ls2) = unlines ls1 +:+ unlines ls2.
Proof.
  induction ls1 as [|l ls1 IH]; [done|].
  cbn [app unlines foldr]. fold (unlines (ls1 ++ ls2)) (unlines ls1).
  by rewrite IH, !StrFacts.app_assoc, StrFacts.app_cons.
Qed.

(** A line that the property pattern does not match for [key] is not taken
    as an echo of [key]. *)
Lemma echoes_no_match key ls :
  (∀ l v, l ∈ ls → Re.match_ property_pattern l ≠ Some [key; v]) →
  echoes key ls = [].
Proof.
  intros Hno. unfold echoes. induction ls as [|l ls IH]; [done|].
  cbn [omap list_omap]. rewrite IH by (intros l' v' Hin; apply Hno; by right).
  destruct (echo_of l) as [[k v]|] eqn:Hecho; [|done].
  destruct (decide (k = key)) as [->|]; [|done].
  exfalso. unfold echo_of in Hecho. destruct (Re.search _ _); [done|].
  destruct (Re.match_ _ l) as [m|] eqn:Hm; [|done].
  pose proof Hm as (k' & v' & r & _ & _ & _ & _ & _ & _ & ->)%Patterns.match_property_Some.
  injection Hecho as <- <-. apply (Hno l v'); [left|done].
Qed.

Lemma foldl_insert_reverse (m : gmap string string) kvs :
  foldl (λ m kv, <[kv.1 := kv.2]> m) m kvs = list_to_map (reverse kvs) ∪ m.
Proof.
  revert m. induction kvs as [|[k v] kvs IH]; intros m.
  - cbn [foldl]. by rewrite reverse_nil, list_to_map_nil, (left_id_L ∅ (∪)).
  - cbn [foldl fst snd]. rewrite IH, reverse_cons, list_to_map_app.
    rewrite <- (assoc_L (∪)). f_equal.
    rewrite list_to_map_cons, list_to_map_nil.
    by rewrite <- insert_union_l, (left_id_L ∅ (∪)).
Qed.

End ScanMore.

Section scanner_more.
Import pom Lines.

(** X4: whatever Maven printed, every key of the property mapping and every
    profile id is an identifier that is not empty, and every value is not
    empty and holds no newline. *)
Theorem parse_well_formed stdout :
  (∀ k v, (parse stdout).1 !! k = Some v →
          k ≠ EmptyString ∧ ReProg.is_ident k = true
          ∧ v ≠ EmptyString ∧ Str.mem Str.LF v = false)
  ∧ (∀ p, p ∈ (parse stdout).2 → p ≠ EmptyString ∧ ReProg.is_ident p = true).
Proof.
  destruct (MoreFacts.parse_wf stdout) as [Hprops Hprofs]. split; [|done].
  intros k v Hkv. apply Hprops in Hkv as (? & ? & ? & Hv). split_and!; [done..|].
  rewrite Patterns.one_line_mem in Hv. by apply negb_true_iff in Hv.
Qed.

(** X5: a profile id is in the profile set exactly when a line that a
    newline ends announces it; such a line holds the words
    [Profile Id: <id> (Active: ..., Source: pom)], and a line that is just
    these words announces the id. *)
Theorem parse_profiles_announced stdout p :
  (p ∈ (parse stdout).2 ↔ ∃ line, line ∈ lines stdout ∧ profile_of line = Some p)
  ∧ (p ∈ (parse stdout).2 →
     ∃ line pre mid rest,
       line ∈ lines stdout
       ∧ line = pre +:+ "Profile Id: " +:+ p +:+ " (Active: " +:+ mid
                    +:+ ", Source: pom)" +:+ rest)
  ∧ (∀ mid,
       p ≠ EmptyString → ReProg.is_ident p = true → Str.mem Str.LF mid = false →
       "Profile Id: " +:+ p +:+ " (Active: " +:+ mid +:+ ", Source: pom)"
         ∈ lines stdout →
       p ∈ (parse stdout).2).
Proof.
  assert (p ∈ (parse stdout).2 ↔
          ∃ line, line ∈ lines stdout ∧ profile_of line = Some p) as Hiff.
  { rewrite Scanner.parse_lines, Scanner.process_lines_profiles. cbn [snd].
    rewrite (left_id_L ∅ (∪)), elem_of_list_to_set. apply list_elem_of_omap. }
  split_and!; [done| |].
  - intros (line & Hin & Hline)%Hiff.
    apply MoreFacts.profile_of_wf in Hline as (_ & _ & pre & mid & rest & ->).
    eexists _, pre, mid, rest. by split.
  - intros mid Hp Hip Hmid Hin. apply Hiff. eexists. split; [done|].
    unfold profile_of. rewrite Patterns.search_profile_line; [done..|].
    by rewrite Patterns.one_line_mem, Hmid.
Qed.

(** X6: an output made of well-formed echoes, each on a line of its own,
    is read back as the mapping of its pairs in which a later pair
    overrides an earlier one with the same key; no profile is found.  A
    value may hold anything but a newline and the words [Profile Id: ]. *)
Theorem parse_echoes kvs :
  Forall (λ kv : string * string,
            kv.1 ≠ EmptyString ∧ ReProg.is_ident kv.1 = true
            ∧ kv.2 ≠ EmptyString ∧ Str.mem Str.LF kv.2 = false
            ∧ PyStr.contains "Profile Id: " kv.2 = false) kvs →
  parse (unlines ((λ kv, Samples.echo kv.1 kv.2) <$> kvs))
  = (list_to_map (reverse kvs), ∅).
Proof.
  intros Hkvs.
  assert (Forall (λ kv : string * string,
            ReProg.one_line (Samples.echo kv.1 kv.2) = true
            ∧ echo_of (Samples.echo kv.1 kv.2) = Some kv
            ∧ profile_of (Samples.echo kv.1 kv.2) = None) kvs) as Hgood.
  { eapply Forall_impl; [exact Hkvs|]. intros [k v] (Hk & Hik & Hv & Hlf & Hc).
    cbn [fst snd] in *.
    assert (ReProg.one_line v = true) as Hone
      by by rewrite Patterns.one_line_mem, Hlf.
    split; [by apply ScanMore.one_line_echo|].
    by apply ScanMore.echo_of_echo_line. }
  rewrite Scanner.parse_lines.
  rewrite <- (StrFacts.app_nil_r (unlines _)), Scanner.lines_unlines; [|..|done].
  2: { apply Forall_fmap. eapply Forall_impl; [exact Hgood|]. by intros kv (? & _). }
  assert (∀ st, process_lines st ((λ kv, Samples.echo kv.1 kv.2) <$> kvs)
                = (foldl (λ m kv, <[kv.1 := kv.2]> m) st.1 kvs, st.2)) as Hfold.
  { clear Hkvs. induction Hgood as [|[k v] kvs (_ & Hecho & Hprof) _ IH];
      intros [m ps]; [done|].
    rewrite fmap_cons, Scanner.process_lines_cons, Scanner.process_line_eq.
    rewrite Hecho, Hprof. by rewrite IH. }
  rewrite Hfold. cbn [fst snd].
  by rewrite ScanMore.foldl_insert_reverse, (right_id_L ∅ (∪)).
Qed.

(** X7: an output made of announcements of identifiers, each on a line of
    its own, is read back as the set of these identifiers, whatever their
    order and however often each is repeated; no property is found. *)
Theorem parse_announcements ids :
  Forall (λ p, p ≠ EmptyString ∧ ReProg.is_ident p = true) ids →
  parse (unlines (Samples.announce <$> ids)) = (∅, list_to_set ids).
Proof.
  intros Hids.
  rewrite Scanner.parse_lines.
  rewrite <- (StrFacts.app_nil_r (unlines _)), Scanner.lines_unlines; [|..|done].
  2: { apply Forall_fmap. eapply Forall_impl; [exact Hids|].
       intros p [_ Hp]. by apply ScanMore.one_line_announce. }
  assert (∀ st, process_lines st (Samples.announce <$> ids)
                = (st.1, st.2 ∪ list_to_set ids)) as Hfold.
  { induction Hids as [|p ids [Hp Hip] _ IH]; intros [m ps].
    - cbn. by rewrite (right_id_L ∅ (∪)).
    - rewrite fmap_cons, Scanner.process_lines_cons, Scanner.process_line_eq.
      destruct (ScanMore.profile_of_announce p Hp Hip) as [-> ->].
      rewrite IH. cbn [fst snd]. f_equal. set_solver. }
  rewrite Hfold. cbn [fst snd]. by rewrite (left_id_L ∅ (∪)).
Qed.

(** X8: reading an output that ends with a newline and then a second
    output gives the profiles of both and the properties of both, those of
    the second output overriding; reading the same complete output twice in
    a row gives what reading it once gives. *)
Theorem parse_append s1 s2 :
  let first := s1 +:+ String Str.LF EmptyString in
  parse (first +:+ s2)
  = ((parse s2).1 ∪ (parse first).1, (parse first).2 ∪ (parse s2).2)
  ∧ parse (first +:+ first) = parse first.
Proof.
  intros first.
  assert (∀ s, parse (first +:+ s)
               = ((parse s).1 ∪ (parse first).1, (parse first).2 ∪ (parse s).2))
    as Happ.
  { intros s. rewrite !Scanner.parse_lines. unfold lines.
    rewrite Scanner.lines_from_app. unfold first at 2.
    rewrite ScanMore.residual_newline.
    unfold process_lines at 1. rewrite foldl_app.
    fold (process_lines (∅, ∅) (lines_from EmptyString first)).
    fold (process_lines (process_lines (∅, ∅) (lines_from EmptyString first))
            (lines_from EmptyString s)).
    apply ScanMore.process_lines_union. }
  split; [apply Happ|].
  rewrite Happ. destruct (parse first) as [m ps]. cbn [fst snd].
  by rewrite (idemp_L (∪) m), (idemp_L (∪) ps).
Qed.

(** C8: a key of the property mapping is bound to the value of the last
    line that ends with a newline, holds no profile announcement and echoes
    the key; lines that echo other keys, wherever they stand, do not
    matter, and neither does what follows the last newline.  In the text of
    an output: after a well-formed echo of the key on a line of its own, if
    no later line that a newline ends is matched by the property pattern
    for that key, the key is bound to the value of that echo, whatever the
    lines before it are and whatever stands after the last newline. *)
Theorem parse_last_terminated_echo_wins stdout key :
  (parse stdout).1 !! key = last (echoes key (lines stdout))
  ∧ (∀ stdout', echoes key (lines stdout') = echoes key (lines stdout) →
                (parse stdout').1 !! key = (parse stdout).1 !! key)
  ∧ (∀ before after tail v,
       stdout = unlines before
                +:+ ("[echoproperties] " +:+ key +:+ "=" +:+ v)
                +:+ String Str.LF (unlines after +:+ tail) →
       Forall (λ l, Str.mem Str.LF l = false) before →
       Forall (λ l, Str.mem Str.LF l = false) after →
       Str.mem Str.LF tail = false →
       key ≠ EmptyString → ReProg.is_ident key = true →
       v ≠ EmptyString → Str.mem Str.LF v = false →
       PyStr.contains "Profile Id: " v = false →
       (∀ l v', l ∈ after → Re.match_ property_pattern l ≠ Some [key; v']) →
       (parse stdout).1 !! key = Some v).
Proof.
  assert (∀ s, (parse s).1 !! key = last (echoes key (lines s))) as Hlast.
  { intros s. rewrite Scanner.parse_lines, Scanner.process_lines_lookup.
    cbn [fst]. rewrite lookup_empty. by destruct (last _). }
  assert (∀ l, Str.mem Str.LF l = false → ReProg.one_line l = true) as Hone
    by (intros l Hl; by rewrite Patterns.one_line_mem, Hl).
  split_and!.
  - apply Hlast.
  - intros stdout' Heq. by rewrite !Hlast, Heq.
  - intros before after tail v -> Hbefore Hafter Htail Hk Hik Hv Hlv Hc Hno.
    rewrite Hlast.
    assert (unlines before +:+ ("[echoproperties] " +:+ key +:+ "=" +:+ v)
              +:+ String Str.LF (unlines after +:+ tail)
            = unlines (before ++ [Samples.echo key v] ++ after) +:+ tail) as ->.
    { rewrite !ScanMore.unlines_app. cbn [unlines foldr]. unfold Samples.echo.
      by rewrite !StrFacts.app_assoc, !StrFacts.app_cons, !StrFacts.app_nil_l. }
    rewrite Scanner.lines_unlines.
    + unfold echoes at 1. rewrite !omap_app. fold (echoes key after).
      rewrite ScanMore.echoes_no_match by done. cbn [omap list_omap].
      destruct (ScanMore.echo_of_echo_line key v) as [-> _]; [by auto..|].
      rewrite decide_True by done. rewrite app_nil_r. apply last_snoc.
    + rewrite !Forall_app, Forall_singleton. split_and!.
      * eapply Forall_impl; [exact Hbefore|]. auto.
      * apply ScanMore.one_line_echo; auto.
      * eapply Forall_impl; [exact Hafter|]. auto.
    + auto.
Qed.

End scanner_more.

Lemma parse_last_echo_counterexample :
  let unterminated :=
    "[echoproperties] k=a" +:+ String Str.LF "[echoproperties] k=b" in
  let announcing :=
    "[echoproperties] k=a" +:+ String Str.LF
      ("[echoproperties] k=Profile Id: x (Active: no, Source: pom)"
       +:+ String Str.LF EmptyString) in
  (Re.match_ pom.property_pattern "[echoproperties] k=b" = Some ["k"; "b"]
   ∧ (pom.parse unterminated).1 !! "k" = Some "a")
  ∧ (Re.match_ pom.property_pattern
       "[echoproperties] k=Profile Id: x (Active: no, Source: pom)"
     = Some ["k"; "Profile Id: x (Active: no, Source: pom)"]
     ∧ (pom.parse announcing).1 !! "k" = Some "a").
Proof. repeat split; vm_compute; reflexivity. Qed.

Lemma parse_last_terminated_echo_wins_witness :
  (pom.parse MoreSamples.out_last_echo).1 !! "db.config.dir"
  = Some "C\:\\tmp\\conf".
Proof.
  refine (proj2 (proj2 (parse_last_terminated_echo_wins
                          MoreSamples.out_last_echo "db.config.dir"))
            [Samples.echo "db.config.dir" "/old"; Samples.echo "db.username" "alice"]
            [Samples.announce "db-info"; Samples.echo "db.username" "bob"]
            "[echoproperties] db.config.dir=/not/terminated"
            "C\:\\tmp\\conf" _ _ _ _ _ _ _ _ _ _).
  - reflexivity.
  - repeat constructor.
  - repeat constructor.
  - reflexivity.
  - discriminate.
  - reflexivity.
  - discriminate.
  - reflexivity.
  - reflexivity.
  - intros l v' Hin. apply elem_of_cons in Hin as [Hl|Hin].
    { rewrite Hl.
      assert (Re.match_ pom.property_pattern (Samples.announce "db-info") = None)
        as Hm by (vm_compute; reflexivity).
      rewrite Hm. clear. discriminate. }
    apply elem_of_cons in Hin as [Hl|Hin].
    { rewrite Hl.
      assert (Re.match_ pom.property_pattern (Samples.echo "db.username" "bob")
              = Some ["db.username"; "bob"]) as Hm by (vm_compute; reflexivity).
      rewrite Hm. clear. discriminate. }
    apply not_elem_of_nil in Hin. destruct Hin.
Defined.

Lemma parse_well_formed_witness :
  "db.username" ≠ EmptyString ∧ ReProg.is_ident "db.username" = true
  ∧ "alice" ≠ EmptyString ∧ Str.mem Str.LF "alice" = false.
Proof.
  apply (proj1 (parse_well_formed Samples.out_alice)).
  vm_compute. reflexivity.
Defined.

Lemma parse_profiles_announced_witness :
  ∃ line, line ∈ Lines.lines Samples.out_neither
          ∧ Lines.profile_of line = Some "db-install".
Proof.
  apply (proj1 (parse_profiles_announced Samples.out_neither "db-install")).
  apply (bool_decide_unpack _). vm_compute. exact I.
Defined.

Lemma parse_echoes_witness :
  pom.parse (Lines.unlines [Samples.echo "db.config.dir" "C\:\\tmp\\conf";
                            Samples.echo "db.username" "alice";
                            Samples.echo "db.username" "bob"])
  = (list_to_map [("db.username", "bob"); ("db.username", "alice");
                  ("db.config.dir", "C\:\\tmp\\conf")], ∅).
Proof.
  apply (parse_echoes [("db.config.dir", "C\:\\tmp\\conf");
                       ("db.username", "alice"); ("db.username", "bob")]).
  repeat constructor; try discriminate; vm_compute; reflexivity.
Defined.

Lemma parse_announcements_witness :
  pom.parse (Lines.unlines [Samples.announce "apex-import";
                            Samples.announce "apex-export";
                            Samples.announce "apex-import"])
  = (∅, list_to_set ["apex-import"; "apex-export"; "apex-import"]).
Proof.
  apply (parse_announcements ["apex-import"; "apex-export"; "apex-import"]).
  repeat constructor; try discriminate; vm_compute; reflexivity.
Defined.

(** * The order of the databases *)

Module OrderFacts.

Lemma lower_char_idemp c : PyStr.lower_char (PyStr.lower_char c) = PyStr.lower_char c.
Proof. by destruct c as [[] [] [] [] [] [] [] []]. Qed.

Lemma lower_idemp s : PyStr.lower (PyStr.lower s) = PyStr.lower s.
Proof. induction s as [|c s IH]; [done|]. simpl. by rewrite lower_char_idemp, IH. Qed.

(** The loop of [db_order] in [src/utils/pom.py]: it stops at the first
    word found in the lowered name. *)
Lemma pom_db_order_from_inl i es db j :
  pom_order.db_order_from i es db = inl j ↔
  ∃ n e, es !! n = Some e ∧ j = i + Z.of_nat n
         ∧ PyStr.contains e (PyStr.lower db) = true
         ∧ ∀ m e', (m < n)%nat → es !! m = Some e' →
                   PyStr.contains e' (PyStr.lower db) = false.
Proof.
  revert i. induction es as [|e es IH]; intros i; simpl.
  - split; [done|]. by intros (n & e & ? & _).
  - destruct (PyStr.contains e (PyStr.lower db)) eqn:He.
    + split.
      * intros [= <-]. exists 0%nat, e. split_and!; [done|lia|done|lia].
      * intros ([|n] & e' & Hn & -> & Hc & Hbefore).
        -- f_equal. lia.
        -- by rewrite (Hbefore 0%nat e) in He by (done || lia).
    + rewrite IH. split.
      * intros (n & e' & Hn & -> & Hc & Hbefore). exists (S n), e'.
        split_and!; [done|lia|done|].
        intros [|m] e'' Hm Hlook; [by injection Hlook as <-|].
        apply (Hbefore m); [lia|done].
      * intros ([|n] & e' & Hn & -> & Hc & Hbefore).
        -- injection Hn as <-. by rewrite Hc in He.
        -- exists n, e'. split_and!; [done|lia|done|].
           intros m e'' Hm Hlook. apply (Hbefore (S m)); [lia|done].
Qed.


Lemma gui_db_order_from i es db :
  gui.db_order_from i es db =
  match pom_order.db_order_from i es db with
  | inl j => j
  | inr _ => 0
  end.
Proof.
  revert i. induction es as [|e es IH]; intros i; simpl; [done|].
  by destruct (PyStr.contains e (PyStr.lower db)).
Qed.

Lemma pom_db_order_from_lower i es db :
  pom_order.db_order_from i es (PyStr.lower db) = pom_order.db_order_from i es db.
Proof.
  revert i. induction es as [|e es IH]; intros i; simpl; rewrite lower_idemp; [done|].
  by rewrite IH.
Qed.

Lemma pom_db_order_range db j : pom_order.db_order db = inl j → 0 ≤ j ≤ 5.
Proof.
  unfold pom_order.db_order.
  intros (n & e & Hn & -> & _)%pom_db_order_from_inl.
  apply lookup_lt_Some in Hn. simpl in Hn. lia.
Qed.

(** *** [sorted] *)

Section sorted.
Context {A : Type} (key : A → Z).

Lemma insert_perm x l : PySorted.insert key x l ≡ₚ x :: l.
Proof.
  induction l as [|y l IH]; simpl; [done|].
  destruct (key x <=? key y); [done|]. by rewrite IH, Permutation_swap.
Qed.

Lemma sorted_perm l : PySorted.sorted key l ≡ₚ l.
Proof.
  induction l as [|x l IH]; [done|].
  unfold PySorted.sorted in *. simpl. by rewrite insert_perm, IH.
Qed.

Lemma insert_sorted x l :
  StronglySorted (λ a b, key a ≤ key b) l →
  StronglySorted (λ a b, key a ≤ key b) (PySorted.insert key x l).
Proof.
  induction 1 as [|y l Hl IH Hy]; simpl; [by repeat constructor|].
  destruct (key x <=? key y) eqn:Hxy.
  - apply Z.leb_le in Hxy. constructor; [by constructor|].
    constructor; [done|]. eapply Forall_impl; [exact Hy|]. intros z Hz. simpl in *. lia.
  - apply Z.leb_gt in Hxy. constructor; [done|].
    rewrite insert_perm. constructor; [lia|done].
Qed.

Lemma sorted_sorted l :
  StronglySorted (λ a b, key a ≤ key b) (PySorted.sorted key l).
Proof.
  induction l as [|x l IH]; [constructor|].
  unfold PySorted.sorted in *. simpl. by apply insert_sorted.
Qed.

(** Elements with the same key keep their order. *)
Lemma insert_stable k x l :
  filter (λ y, key y = k) (PySorted.insert key x l)
  = filter (λ y, key y = k) (x :: l).
Proof.
  induction l as [|y l IH]; simpl; [done|].
  destruct (key x <=? key y) eqn:Hxy; [done|]. apply Z.leb_gt in Hxy.
  rewrite !filter_cons in *.
  destruct (decide (key y = k)) as [Hy|Hy], (decide (key x = k)) as [Hx|Hx];
    try lia; by rewrite IH.
Qed.

Lemma sorted_stable k l :
  filter (λ y, key y = k) (PySorted.sorted key l) = filter (λ y, key y = k) l.
Proof.
  induction l as [|x l IH]; [done|].
  unfold PySorted.sorted in *. simpl. rewrite insert_stable, !filter_cons.
  by rewrite IH.
Qed.

Lemma sorted_nil_iff l : PySorted.sorted key l = [] ↔ l = [].
Proof.
  split; [|by intros ->]. intros H.
  apply Permutation_nil_r. by rewrite <- H, sorted_perm.
Qed.

End sorted.

End OrderFacts.


(** X11: [db_order] of [src/oracle-tools-gui.py] is always an index from 0
    to 5: that of [src/utils/pom.py] when a word occurs in the name, and 0,
    the index of dev, when none does; it does not tell capital from small
    letters. *)
Theorem gui_db_order_spec db :
  0 ≤ gui.db_order db ≤ 5
  ∧ gui.db_order db = match pom_order.db_order db with
                      | inl j => j
                      | inr _ => 0
                      end
  ∧ gui.db_order (PyStr.lower db) = gui.db_order db.
Proof.
  assert (gui.db_order db = match pom_order.db_order db with
                            | inl j => j
                            | inr _ => 0
                            end) as Heq
    by apply OrderFacts.gui_db_order_from.
  split; [|split; [done|]].
  - rewrite Heq. destruct (pom_order.db_order db) as [j|s] eqn:Hj; [|lia].
    by apply OrderFacts.pom_db_order_range in Hj.
  - unfold gui.db_order. rewrite !OrderFacts.gui_db_order_from.
    by rewrite OrderFacts.pom_db_order_from_lower.
Qed.


(** * [process_POM] of [src/oracle-tools-gui.py] *)

Module GuiFacts.
Import gui.

Lemma gui_scan_eq out line st :
  oracle_tools_gui.scan out line st = pom.scan out line st.
Proof.
  revert line st. induction out as [|ch rest IH]; intros line st; [done|].
  simpl. case_bool_decide; [apply IH|].
  change (oracle_tools_gui.process_line line st) with (pom.process_line line st).
  apply IH.
Qed.

Lemma gui_determine_eq w pom_file :
  oracle_tools_gui.determine_POM_settings w pom_file
  = pom.determine_POM_settings w pom_file None.
Proof.
  unfold oracle_tools_gui.determine_POM_settings, pom.determine_POM_settings,
    oracle_tools_gui.parse, pom.parse.
  change (pom.command pom_file None) with (oracle_tools_gui.command pom_file).
  by rewrite gui_scan_eq.
Qed.

(** The bundle that this file chooses. *)
Lemma process_POM_after_scan w pom_file properties profiles :
  pom.determine_POM_settings w pom_file None = Return (properties, profiles) →
  process_POM w pom_file =
  if pom.issuperset profiles apex_profiles || pom.issuperset profiles db_profiles
  then
    match properties !! "db.config.dir" with
    | None => Raise' (Shared (KeyError "db.config.dir"))
    | Some dir =>
        match Outcome.targets w dir with
        | [] => Raise' (Shared (AssertionError (NoSubdirectories dir)))
        | dbs =>
            match properties !! "db.proxy.username" with
            | None => Raise' (Shared (KeyError "db.proxy.username"))
            | Some proxy =>
                Return' (dbs,
                         (if pom.issuperset profiles apex_profiles
                          then apex_profiles else db_profiles), proxy)
            end
        end
    end
  else Raise' (Shared (Exception (ProfilesNotSuperset profiles
                                    (list_to_set apex_profiles)
                                    (list_to_set db_profiles)))).
Proof.
  intros Hdet.
  assert (Invariant.wf (properties, profiles)) as [Hwf _].
  { apply Steps.determine_POM_settings_Return in Hdet as [_ ->].
    apply MoreFacts.parse_wf. }
  unfold process_POM. rewrite gui_determine_eq, Hdet. cbn [lift bind'].
  assert (∀ bundle,
    bind' (Return' bundle) (λ profiles0 : list string,
      bind' (lift (subscript properties "db.config.dir")) (λ dir,
      bind' (lift (assert (truthy dir) (Return ConfigDirNotSet))) (λ _,
      bind' (lift (subscript properties "db.config.dir")) (λ dir0,
      let dbs : list string :=
        match iterdir w dir0 with
        | Some entries => name <$> filter (λ d, is_dir d = true) entries
        | None => []
        end in
      bind' (lift (assert (bool_decide (0 < length dbs)%nat)
                     (bind (subscript properties "db.config.dir")
                           (λ dir1, Return (NoSubdirectories dir1))))) (λ _,
      bind' (lift (subscript properties "db.proxy.username")) (λ db_proxy_username,
      bind' (if truthy db_proxy_username then Return' tt else Raise' ProxyNotSet) (λ _,
      Return' (dbs, profiles0, db_proxy_username))))))))
    = match properties !! "db.config.dir" with
      | None => Raise' (Shared (KeyError "db.config.dir"))
      | Some dir =>
          match Outcome.targets w dir with
          | [] => Raise' (Shared (AssertionError (NoSubdirectories dir)))
          | dbs =>
              match properties !! "db.proxy.username" with
              | None => Raise' (Shared (KeyError "db.proxy.username"))
              | Some proxy => Return' (dbs, bundle, proxy)
              end
          end
      end) as Hrest.
  { intros bundle. cbn [bind']. unfold subscript.
    destruct (properties !! "db.config.dir") as [dir|] eqn:Hdir; [|done].
    cbn [lift bind']. apply Hwf in Hdir as (_ & _ & Hdir & _).
    unfold truthy. rewrite bool_decide_false by done. cbn [negb assert lift bind'].
    unfold Outcome.targets.
    generalize (match iterdir w dir with
                | Some entries => name <$> filter (λ d, is_dir d = true) entries
                | None => []
                end). intros dbs.
    destruct dbs as [|db dbs].
    - cbn [length]. rewrite bool_decide_false by lia. done.
    - cbn [length]. rewrite bool_decide_true by lia. cbn [assert lift bind'].
      destruct (properties !! "db.proxy.username") as [proxy|] eqn:Hproxy; [|done].
      cbn [lift bind']. apply Hwf in Hproxy as (_ & _ & Hproxy & _).
      by rewrite bool_decide_false by done. }
  destruct (pom.issuperset profiles apex_profiles); [apply Hrest|].
  destruct (pom.issuperset profiles db_profiles); [apply Hrest|]. done.
Qed.

End GuiFacts.

Section gui_process.
Import gui.

Variables (w : world) (pom_file : string).

(** X12: in [src/oracle-tools-gui.py] the assertions on [db.config.dir] and
    on the proxy account never fail: a property that is present is never
    empty, and one that is absent raises [KeyError] where it is read. *)
Theorem gui_process_POM_KeyError :
  process_POM w pom_file ≠ Raise' ProxyNotSet
  ∧ process_POM w pom_file ≠ Raise' (Shared (AssertionError ConfigDirNotSet))
  ∧ (∀ properties profiles,
       oracle_tools_gui.determine_POM_settings w pom_file
         = Return (properties, profiles) →
       list_to_set apex_profiles ⊆ profiles ∨ list_to_set db_profiles ⊆ profiles →
       (properties !! "db.config.dir" = None →
        process_POM w pom_file = Raise' (Shared (KeyError "db.config.dir")))
       ∧ (∀ dir, properties !! "db.config.dir" = Some dir →
                 Outcome.targets w dir ≠ [] →
                 properties !! "db.proxy.username" = None →
                 process_POM w pom_file
                 = Raise' (Shared (KeyError "db.proxy.username")))).
Proof.
  assert (∀ e, process_POM w pom_file = Raise' e →
               e ≠ ProxyNotSet ∧ e ≠ Shared (AssertionError ConfigDirNotSet)) as Hnever.
  { intros e.
    destruct (pom.determine_POM_settings w pom_file None) as [[properties profiles]|e']
      eqn:Hdet.
    - rewrite (GuiFacts.process_POM_after_scan _ _ _ _ Hdet).
      destruct (_ || _); [|by intros [= <-]].
      destruct (properties !! "db.config.dir"); [|by intros [= <-]].
      destruct (Outcome.targets w _); [by intros [= <-]|].
      destruct (properties !! "db.proxy.username"); [done|by intros [= <-]].
    - unfold process_POM. rewrite GuiFacts.gui_determine_eq, Hdet. cbn.
      intros [= <-]. split; [done|]. intros [= ->].
      by apply MoreFacts.determine_POM_settings_Raise in Hdet as (? & ? & _ & ?). }
  split_and!.
  - intros H. by apply Hnever in H as [? _].
  - intros H. by apply Hnever in H as [_ ?].
  - intros properties profiles Hdet Hcl.
    rewrite GuiFacts.gui_determine_eq in Hdet.
    rewrite (GuiFacts.process_POM_after_scan _ _ _ _ Hdet).
    assert (pom.issuperset profiles apex_profiles
            || pom.issuperset profiles db_profiles = true) as ->.
    { apply orb_true_iff. by rewrite !Steps.issuperset_true. }
    split.
    + by intros ->.
    + intros dir -> Hdbs ->. by destruct (Outcome.targets w dir).
Qed.

End gui_process.

Lemma gui_process_POM_KeyError_witness :
  gui.process_POM (Samples.run_with Samples.out_no_dir Samples.three_dirs) "pom.xml"
  = gui.Raise' (gui.Shared (KeyError "db.config.dir")).
Proof.
  destruct (gui_process_POM_KeyError
              (Samples.run_with Samples.out_no_dir Samples.three_dirs) "pom.xml")
    as (_ & _ & H).
  refine (proj1 (H (pom.parse Samples.out_no_dir).1 (pom.parse Samples.out_no_dir).2
                   _ _) _).
  - rewrite GuiFacts.gui_determine_eq. apply Steps.scanned_run_with.
  - left. apply Steps.issuperset_true. vm_compute. reflexivity.
  - vm_compute. reflexivity.
Defined.

Section gui_and_pom.

Variables (w : world) (pom_file : string).

Lemma process_POM_scanned override t :
  pom.process_POM w pom_file override = Return t →
  ∃ properties profiles,
    pom.determine_POM_settings w pom_file override = Return (properties, profiles).
Proof.
  unfold pom.process_POM.
  destruct (pom.determine_POM_settings w pom_file override) as [[properties profiles]|e];
    [eauto|done].
Qed.

Lemma db_profiles_subset (profiles : gset string) :
  list_to_set pom.db_profiles ⊆ profiles → list_to_set gui.db_profiles ⊆ profiles.
Proof.
  intros H p Hp. apply H. apply elem_of_list_to_set in Hp.
  apply elem_of_list_to_set. unfold gui.db_profiles, pom.db_profiles in *.
  set_solver.
Qed.

(** X13: when [process_POM] of [src/utils/pom.py], called without a
    directory, returns a tuple with a proxy user name, and the directory
    was echoed as it is returned, [process_POM] of
    [src/oracle-tools-gui.py] returns the same targets and the same proxy
    user name, with the Apex bundle if that was the bundle and with its own
    four database profiles if not. *)
Theorem gui_process_POM_agrees dir dbs bundle proxy user :
  pom.process_POM w pom_file None = Return (dir, dbs, bundle, proxy, user) →
  proxy ≠ EmptyString →
  (pom.parse (stdout (popen w (pom.command pom_file None)))).1 !! "db.config.dir"
    = Some dir →
  gui.process_POM w pom_file
  = gui.Return' (dbs,
                 (if decide (bundle = pom.apex_profiles)
                  then ["apex-export"; "apex-import"]
                  else ["db-install"; "db-test"; "db-generate-ddl-full";
                        "db-generate-ddl-incr"]),
                 proxy).
Proof.
  intros Hpom Hproxy Hraw.
  destruct (process_POM_scanned _ _ Hpom) as (properties & profiles & Hdet).
  pose proof Hdet as [_ Hparse]%Steps.determine_POM_settings_Return.
  rewrite <- Hparse in Hraw. cbn [fst] in Hraw.
  apply (process_POM_Return _ _ _ _ _ Hdet) in Hpom
    as (Hcl & _ & Hdbs & _ & Hdir & Htargets & Hcred & Hbundle).
  unfold Outcome.dir_of, Outcome.targets_of, Outcome.credentials_of,
    Outcome.bundle_of in *. cbn [fst snd] in *.
  injection Hcred as Hp _.
  rewrite (GuiFacts.process_POM_after_scan _ _ _ _ Hdet).
  change gui.apex_profiles with pom.apex_profiles.
  assert (pom.issuperset profiles pom.apex_profiles
          || pom.issuperset profiles gui.db_profiles = true) as ->.
  { apply orb_true_iff. rewrite !Steps.issuperset_true.
    destruct Hcl as [?|?%db_profiles_subset]; auto. }
  rewrite Hraw. rewrite <- Hdir in Hdbs, Htargets. rewrite <- Htargets in *.
  destruct dbs as [|db dbs]; [done|].
  destruct (properties !! "db.proxy.username") as [proxy'|]; [|done].
  simpl in Hp. subst proxy'. do 2 f_equal. f_equal.
  rewrite Hbundle. destruct (pom.issuperset profiles pom.apex_profiles).
  - by rewrite decide_True.
  - by rewrite decide_False.
Qed.

(** X14: a profile set with the four database profiles of
    [src/oracle-tools-gui.py] and without [db-info] or [db-code-check] is
    turned down by [process_POM] of [src/utils/pom.py] and passes the
    classification of [src/oracle-tools-gui.py]; every set that
    [src/utils/pom.py] accepts passes it too. *)
Theorem gui_accepts_four_profiles properties profiles :
  pom.determine_POM_settings w pom_file None = Return (properties, profiles) →
  (list_to_set gui.db_profiles ⊆ profiles →
   ¬ list_to_set pom.apex_profiles ⊆ profiles →
   ¬ list_to_set pom.db_profiles ⊆ profiles →
   pom.process_POM w pom_file None
   = Raise (Exception (ProfilesNotSuperset profiles
                         (list_to_set pom.apex_profiles)
                         (list_to_set pom.db_profiles)))
   ∧ ∀ msg, gui.process_POM w pom_file ≠ gui.Raise' (gui.Shared (Exception msg)))
  ∧ (list_to_set pom.apex_profiles ⊆ profiles
     ∨ list_to_set pom.db_profiles ⊆ profiles →
     ∀ msg, gui.process_POM w pom_file ≠ gui.Raise' (gui.Shared (Exception msg))).
Proof.
  intros Hdet.
  assert (list_to_set gui.apex_profiles ⊆ profiles
          ∨ list_to_set gui.db_profiles ⊆ profiles →
          ∀ msg, gui.process_POM w pom_file ≠ gui.Raise' (gui.Shared (Exception msg)))
    as Hpass.
  { intros Hcl msg. rewrite (GuiFacts.process_POM_after_scan _ _ _ _ Hdet).
    assert (pom.issuperset profiles gui.apex_profiles
            || pom.issuperset profiles gui.db_profiles = true) as ->.
    { apply orb_true_iff. by rewrite !Steps.issuperset_true. }
    destruct (properties !! "db.config.dir"); [|done].
    destruct (Outcome.targets w _); [done|].
    by destruct (properties !! "db.proxy.username"). }
  split.
  - intros H4 Hapex H6. split; [|by apply Hpass; right].
    rewrite (Steps.process_POM_classified _ _ _ _ _ Hdet).
    apply Steps.issuperset_false in Hapex, H6. by rewrite Hapex, H6.
  - intros [Ha|H6]; apply Hpass; [by left|right]. by apply db_profiles_subset.
Qed.

End gui_and_pom.

Lemma gui_process_POM_agrees_witness :
  gui.process_POM (Samples.run_with Samples.out_db Samples.three_dirs) "pom.xml"
  = gui.Return' (["dev"; "test"; "prod"],
                 ["db-install"; "db-test"; "db-generate-ddl-full";
                  "db-generate-ddl-incr"], "proxyacct").
Proof.
  apply (gui_process_POM_agrees
           (Samples.run_with Samples.out_db Samples.three_dirs) "pom.xml"
           "/opt/conf" ["dev"; "test"; "prod"]
           ["db-info"; "db-install"; "db-code-check"; "db-test";
            "db-generate-ddl-full"; "db-generate-ddl-incr"]
           "proxyacct" EmptyString).
  - vm_compute. reflexivity.
  - discriminate.
  - vm_compute. reflexivity.
Defined.

Lemma gui_accepts_four_profiles_witness :
  pom.process_POM (Samples.run_with MoreSamples.out_four Samples.three_dirs)
    "pom.xml" None
  = Raise (Exception (ProfilesNotSuperset (pom.parse MoreSamples.out_four).2
                        (list_to_set pom.apex_profiles)
                        (list_to_set pom.db_profiles)))
  ∧ ∀ msg, gui.process_POM (Samples.run_with MoreSamples.out_four Samples.three_dirs)
             "pom.xml" ≠ gui.Raise' (gui.Shared (Exception msg)).
Proof.
  refine (proj1 (gui_accepts_four_profiles _ _ _ _
                   (Steps.scanned_run_with MoreSamples.out_four Samples.three_dirs
                      "pom.xml" None)) _ _ _).
  - apply Steps.issuperset_true. vm_compute. reflexivity.
  - apply Steps.issuperset_false. vm_compute. reflexivity.
  - apply Steps.issuperset_false. vm_compute. reflexivity.
Defined.

(** * The form and the main block of [src/oracle-tools-gui.py] *)

Module FormFacts.
Import gui.

Lemma process_POM_Return' w pom_file dbs profiles proxy :
  process_POM w pom_file = Return' (dbs, profiles, proxy) →
  dbs ≠ [] ∧ (profiles = apex_profiles ∨ profiles = db_profiles)
  ∧ proxy ≠ EmptyString.
Proof.
  destruct (pom.determine_POM_settings w pom_file None) as [[properties ps]|e]
    eqn:Hdet.
  - assert (Invariant.wf (properties, ps)) as [Hwf _].
    { apply Steps.determine_POM_settings_Return in Hdet as [_ ->].
      apply MoreFacts.parse_wf. }
    rewrite (GuiFacts.process_POM_after_scan _ _ _ _ Hdet).
    destruct (_ || _); [|done].
    destruct (properties !! "db.config.dir"); [|done].
    destruct (Outcome.targets w _) as [|db dbs']; [done|].
    destruct (properties !! "db.proxy.username") as [proxy'|] eqn:Hproxy; [|done].
    intros [= <- <- <-]. apply Hwf in Hproxy as (_ & _ & ? & _).
    split_and!; [done| |done]. destruct (pom.issuperset ps apex_profiles); auto.
  - unfold process_POM. by rewrite GuiFacts.gui_determine_eq, Hdet.
Qed.

Lemma head_sorted_le {A} (key : A → Z) l x y :
  StronglySorted (λ a b, key a ≤ key b) l → head l = Some x → y ∈ l →
  key x ≤ key y.
Proof.
  intros Hl Hx Hy. destruct Hl as [|z l Hl Hz]; [done|]. injection Hx as ->.
  apply elem_of_cons in Hy as [->|Hy]; [lia|].
  by apply (proj1 (Forall_forall _ _) Hz).
Qed.

End FormFacts.

(** X15: whenever [process_POM] returns, [run_POM_file] gets to declare its
    form, so that neither [profiles[0]] nor [dbs_sorted[0]] is out of range;
    the choices of the action are the bundle and its default is the first
    profile; the choices of the database are the targets ordered by
    [db_order], targets with the same key in the order of the listing, and
    the default is the first of them, whose key no target is below. *)
Theorem run_POM_file_form w pom_file :
  gui.run_POM_file w pom_file ≠ gui.Raise' gui.IndexError
  ∧ (∀ e, gui.run_POM_file w pom_file = gui.Raise' e →
          gui.process_POM w pom_file = gui.Raise' e)
  ∧ (∀ dbs profiles proxy,
       gui.process_POM w pom_file = gui.Return' (dbs, profiles, proxy) →
       ∃ fm, gui.run_POM_file w pom_file = gui.Return' fm
         ∧ gui.action_choices fm = profiles
         ∧ head profiles = Some (gui.action_default fm)
         ∧ gui.db_choices fm ≡ₚ dbs
         ∧ StronglySorted (λ a b, gui.db_order a ≤ gui.db_order b) (gui.db_choices fm)
         ∧ (∀ k, filter (λ d, gui.db_order d = k) (gui.db_choices fm)
                 = filter (λ d, gui.db_order d = k) dbs)
         ∧ head (gui.db_choices fm) = Some (gui.db_default fm)
         ∧ (∀ db, db ∈ dbs → gui.db_order (gui.db_default fm) ≤ gui.db_order db)
         ∧ gui.password_help fm = "The password for database account " +:+ proxy
         ∧ gui.file_default fm = pom_file).
Proof.
  assert (∀ dbs profiles proxy,
       gui.process_POM w pom_file = gui.Return' (dbs, profiles, proxy) →
       ∃ fm, gui.run_POM_file w pom_file = gui.Return' fm
         ∧ gui.action_choices fm = profiles
         ∧ head profiles = Some (gui.action_default fm)
         ∧ gui.db_choices fm ≡ₚ dbs
         ∧ StronglySorted (λ a b, gui.db_order a ≤ gui.db_order b) (gui.db_choices fm)
         ∧ (∀ k, filter (λ d, gui.db_order d = k) (gui.db_choices fm)
                 = filter (λ d, gui.db_order d = k) dbs)
         ∧ head (gui.db_choices fm) = Some (gui.db_default fm)
         ∧ (∀ db, db ∈ dbs → gui.db_order (gui.db_default fm) ≤ gui.db_order db)
         ∧ gui.password_help fm = "The password for database account " +:+ proxy
         ∧ gui.file_default fm = pom_file) as Hform.
  { intros dbs profiles proxy Hret.
    destruct (FormFacts.process_POM_Return' _ _ _ _ _ Hret) as (Hdbs & Hprofiles & _).
    unfold gui.run_POM_file. rewrite Hret. cbn [gui.bind'].
    destruct profiles as [|action profiles];
      [by destruct Hprofiles as [[=]|[=]]|]. cbn [gui.first gui.bind'].
    destruct (PySorted.sorted gui.db_order dbs) as [|db sorted] eqn:Hsorted.
    { by apply OrderFacts.sorted_nil_iff in Hsorted. }
    cbn [gui.first gui.bind']. eexists. split; [done|].
    cbn [gui.action_choices gui.action_default gui.db_choices gui.db_default
         gui.password_help gui.file_default].
    rewrite <- Hsorted. split_and!; try done.
    - apply OrderFacts.sorted_perm.
    - apply OrderFacts.sorted_sorted.
    - intros k. apply OrderFacts.sorted_stable.
    - by rewrite Hsorted.
    - intros d Hd.
      apply (FormFacts.head_sorted_le gui.db_order (PySorted.sorted gui.db_order dbs)).
      + apply OrderFacts.sorted_sorted.
      + by rewrite Hsorted.
      + by rewrite OrderFacts.sorted_perm. }
  assert (∀ e, gui.run_POM_file w pom_file = gui.Raise' e →
               gui.process_POM w pom_file = gui.Raise' e) as Hraise.
  { intros e. destruct (gui.process_POM w pom_file) as [[[dbs profiles] proxy]|e']
      eqn:Hret.
    - destruct (Hform _ _ _ eq_refl) as (fm & -> & _). done.
    - unfold gui.run_POM_file. rewrite Hret. cbn [gui.bind']. by intros [= ->]. }
  split_and!; [|done..].
  intros H%Hraise.
  destruct (pom.determine_POM_settings w pom_file None) as [[properties ps]|e]
    eqn:Hdet.
  - rewrite (GuiFacts.process_POM_after_scan _ _ _ _ Hdet) in H.
    destruct (_ || _); [|done].
    destruct (properties !! "db.config.dir"); [|done].
    destruct (Outcome.targets w _); [done|].
    by destruct (properties !! "db.proxy.username").
  - unfold gui.process_POM in H. by rewrite GuiFacts.gui_determine_eq, Hdet in H.
Qed.

Lemma run_POM_file_form_witness :
  ∃ fm, gui.run_POM_file (Samples.run_with Samples.out_db MoreSamples.mixed_dirs)
          "pom.xml" = gui.Return' fm
        ∧ gui.action_choices fm
          = ["db-install"; "db-test"; "db-generate-ddl-full"; "db-generate-ddl-incr"]
        ∧ gui.db_choices fm ≡ₚ ["prod"; "Test-2"; "scratch"; "DEV"; "test-1"].
Proof.
  destruct (run_POM_file_form (Samples.run_with Samples.out_db MoreSamples.mixed_dirs)
              "pom.xml") as (_ & _ & H).
  destruct (H ["prod"; "Test-2"; "scratch"; "DEV"; "test-1"]
              ["db-install"; "db-test"; "db-generate-ddl-full"; "db-generate-ddl-incr"]
              "proxyacct") as (fm & Hrun & Hact & _ & Hperm & _).
  - vm_compute. reflexivity.
  - exists fm. split_and!; [exact Hrun | exact Hact | exact Hperm].
Defined.

(** The form of a database project whose directory lists five
    subdirectories: the names without a known word come first, with dev. *)
Example run_POM_file_sample :
  gui.run_POM_file (Samples.run_with Samples.out_db MoreSamples.mixed_dirs) "pom.xml"
  = gui.Return'
      (gui.Form ["db-install"; "db-test"; "db-generate-ddl-full"; "db-generate-ddl-incr"]
                "db-install"
                ["scratch"; "DEV"; "Test-2"; "test-1"; "prod"] "scratch"
                "The password for database account proxyacct" "pom.xml").
Proof. vm_compute. reflexivity. Qed.

(** X16: the main block drops every [--] of the command line, wherever it
    stands; with exactly four other arguments it goes on to the Maven
    command made of them in order, with two, three or more than four the
    bare assertion fails, and with at most one the form is shown. *)
Theorem main_spec prog :
  (∀ l1 l2, gui.main (prog :: l1 ++ "--" :: l2) = gui.main (prog :: l1 ++ l2))
  ∧ (∀ args cmd,
       gui.main (prog :: args) = gui.Return' (gui.Build cmd) ↔
       ∃ profile db password file,
         filter (λ a, a ≠ "--") args = [profile; db; password; file]
         ∧ cmd = "mvn -P" +:+ profile +:+ " -Ddb=" +:+ db
                 +:+ " -Ddb.proxy.password=" +:+ password +:+ " --file " +:+ file)
  ∧ (∀ args,
       gui.main (prog :: args) = gui.Raise' gui.BareAssertionError ↔
       (2 ≤ length (filter (λ a, a ≠ "--") args))%nat
       ∧ length (filter (λ a, a ≠ "--") args) ≠ 4%nat)
  ∧ (∀ args, (length (filter (λ a, a ≠ "--") args) ≤ 1)%nat →
       gui.main (prog :: args)
       = gui.Return' (match filter (λ a, a ≠ "--") args with
                      | [] => gui.ChooseFile
                      | file :: _ => gui.RunForm file
                      end)).
Proof.
  split_and!.
  - intros l1 l2. unfold gui.main. cbn [tail].
    rewrite !filter_app, filter_cons. by rewrite decide_False by (by intros ?).
  - intros args cmd. unfold gui.main. cbn [tail].
    generalize (filter (λ a, a ≠ "--") args). intros argv.
    destruct argv as [|a [|b [|c [|d [|e argv]]]]]; cbn [length];
      case_bool_decide; try lia; naive_solver.
  - intros args. unfold gui.main. cbn [tail].
    generalize (filter (λ a, a ≠ "--") args). intros argv.
    destruct argv as [|a [|b [|c [|d [|e argv]]]]]; cbn [length];
      case_bool_decide; try lia; split; try done; try lia; intros [? ?]; lia.
  - intros args. unfold gui.main. cbn [tail].
    generalize (filter (λ a, a ≠ "--") args). intros argv Hlen.
    rewrite bool_decide_true by done. by destruct argv.
Qed.

Lemma main_spec_witness :
  gui.main ["oracle-tools-gui.py"; "db-install"; "--"; "dev"; "secret"; "pom.xml"]
  = gui.Return' (gui.Build
      "mvn -Pdb-install -Ddb=dev -Ddb.proxy.password=secret --file pom.xml")
  ∧ gui.main ["oracle-tools-gui.py"; "--"; "pom.xml"]
    = gui.Return' (gui.RunForm "pom.xml").
Proof.
  destruct (main_spec "oracle-tools-gui.py") as (_ & Hbuild & _ & Hform). split.
  - apply Hbuild. by exists "db-install", "dev", "secret", "pom.xml".
  - apply (Hform ["--"; "pom.xml"]). vm_compute. lia.
Defined.
